(** * FLOAT inference service: the [/inference] request handler of [app.py]

    The service is a thin adapter around an external inference agent.  The
    handler stages two uploads in a scratch directory, derives the name of
    the output video from the request, calls the agent and answers with the
    file the agent reports.

    The development follows the source:
    - [os.path.join], [os.path.splitext] and [os.path.basename] are the
      POSIX versions of the Python library, on strings;
    - the handler is written in a state-and-exception monad over a [World]
      (the global [agent], the state of the operating system, the standard
      output, and the sequence of calls made to the agent);
    - the operating system, the clock, the printing of floats and the
      printing of [HTTPException] are collaborators that live outside the
      repository: they are the fields of a [Runtime]. *)

From Stdlib Require Import String Ascii ZArith List Bool Lia DecimalString.
Import ListNotations.
Local Open Scope string_scope.
Local Open Scope Z_scope.

(** ** Strings as Python uses them

    A Rocq string is a sequence of bytes; the source's literals are kept in
    UTF-8.  The separators looked for below (['/'] and ['.']) are ASCII, and
    no byte of a multi-byte UTF-8 sequence is ASCII, so searching bytes and
    searching code points cut a name at the same places. *)

Module Py.

(** [s.rfind(c)]: the highest index of [c] in [s], [-1] when absent. *)
Fixpoint rfind_from (c : ascii) (s : string) (i last : Z) : Z :=
  match s with
  | EmptyString => last
  | String a s' => rfind_from c s' (i + 1) (if Ascii.eqb a c then i else last)
  end.

Definition rfind (s : string) (c : ascii) : Z := rfind_from c s 0 (-1).

(** [s[:n]] and [s[n:]] for [0 <= n]. *)
Definition slice_to (s : string) (n : Z) : string :=
  substring 0 (Z.to_nat n) s.

Definition slice_from (s : string) (n : Z) : string :=
  substring (Z.to_nat n) (String.length s - Z.to_nat n) s.

(** [s.startswith(c)] and [s.endswith(c)] for a one-character [c]. *)
Definition startswith (s : string) (c : ascii) : bool :=
  match s with
  | EmptyString => false
  | String a _ => Ascii.eqb a c
  end.

Fixpoint endswith (s : string) (c : ascii) : bool :=
  match s with
  | EmptyString => false
  | String a EmptyString => Ascii.eqb a c
  | String _ s' => endswith s' c
  end.

(** Truth value of a string: [not s] holds of the empty string only. *)
Definition truthy (s : string) : bool :=
  match s with
  | EmptyString => false
  | String _ _ => true
  end.

(** [str(n)] for an [int]: the decimal digits, with [-] before a negative
    number. *)
Definition str_int (n : Z) : string := NilZero.string_of_int (Z.to_int n).

End Py.

(** ** [os.path] (posixpath) *)

Module os_path.

Definition sep : ascii := "/"%char.
Definition extsep : ascii := "."%char.

(** [os.path.join(a, b)]:
<<
    if b.startswith(sep):               path = b
    elif not path or path.endswith(sep): path += b
    else:                                path += sep + b
>> *)
Definition join (a b : string) : string :=
  if Py.startswith b sep then b
  else if negb (Py.truthy a) || Py.endswith a sep then a ++ b
  else a ++ String sep b.

(** The loop of [genericpath._splitext] that skips the leading dots of the
    file name: it answers [true] as soon as a character other than a dot
    stands before [dotIndex]. *)
Fixpoint has_stem (p : string) (filenameIndex : Z) (steps : nat) : bool :=
  match steps with
  | O => false
  | S k =>
      match String.get (Z.to_nat filenameIndex) p with
      | Some c =>
          if Ascii.eqb c extsep then has_stem p (filenameIndex + 1) k
          else true
      | None => true
      end
  end.

(** [os.path.splitext(p)]:
<<
    sepIndex = p.rfind(sep)
    dotIndex = p.rfind(extsep)
    if dotIndex > sepIndex:
        filenameIndex = sepIndex + 1
        while filenameIndex < dotIndex:
            if p[filenameIndex:filenameIndex+1] != extsep:
                return p[:dotIndex], p[dotIndex:]
            filenameIndex += 1
    return p, p[:0]
>> *)
Definition splitext (p : string) : string * string :=
  let sepIndex := Py.rfind p sep in
  let dotIndex := Py.rfind p extsep in
  if (sepIndex <? dotIndex)
     && has_stem p (sepIndex + 1) (Z.to_nat (dotIndex - (sepIndex + 1)))
  then (Py.slice_to p dotIndex, Py.slice_from p dotIndex)
  else (p, Py.slice_to p 0).

(** [os.path.basename(p)]: [i = p.rfind(sep) + 1; return p[i:]]. *)
Definition basename (p : string) : string :=
  Py.slice_from p (Py.rfind p sep + 1).

End os_path.

(** ** Exceptions and outcomes

    [exn] are the instances of [Exception], the ones [except Exception]
    catches.  Two kinds matter to the handler: FastAPI's [HTTPException],
    which carries a status code and a detail, and any other one, of which
    only the text [str(e)] is ever used.  The library operations of the
    machine raise such exceptions only ([OSError] and the like).

    [base_exn] are the instances of [BaseException]: those of [Exception],
    and the ones that are not ([KeyboardInterrupt], [SystemExit],
    [GeneratorExit]), which [except Exception] lets through.  Code from
    outside the library, the agent above all, may raise either. *)

Inductive exn : Type :=
| HTTPException (status_code : Z) (detail : string)
| Error (message : string).

Inductive base_exn : Type :=
| Exception (e : exn)
| Fatal (name : string).

Coercion Exception : exn >-> base_exn.

(** What a call gives: a value, or an exception of the class [E]. *)
Inductive outcome (E A : Type) : Type :=
| Returned (a : A)
| Raised (e : E).

Arguments Returned {E A} a.
Arguments Raised {E A} & e.

(** A pair is read against the type expected of it, so that an [exn] at the
    place of a [base_exn] is taken as the [Exception] it is. *)
#[local] Arguments pair {A B} & a b.

(** ** The request and the call to the agent *)

(** [UploadFile]: the file name sent by the client and the uploaded bytes. *)
Record UploadFile : Type := {
  filename : string;
  file : string
}.

(** The keyword arguments of [agent.run_inference], for a type [F] of
    floats. *)
Record Call (F : Type) : Type := {
  arg_res_video_path : string;
  arg_ref_path : string;
  arg_audio_path : string;
  arg_a_cfg_scale : F;
  arg_r_cfg_scale : F;
  arg_e_cfg_scale : F;
  arg_emo : string;
  arg_nfe : Z;
  arg_no_crop : bool;
  arg_seed : Z;
  arg_verbose : bool
}.

Arguments arg_res_video_path {F} _.
Arguments arg_ref_path {F} _.
Arguments arg_audio_path {F} _.
Arguments arg_a_cfg_scale {F} _.
Arguments arg_r_cfg_scale {F} _.
Arguments arg_e_cfg_scale {F} _.
Arguments arg_emo {F} _.
Arguments arg_nfe {F} _.
Arguments arg_no_crop {F} _.
Arguments arg_seed {F} _.
Arguments arg_verbose {F} _.

(** [FileResponse(path=..., media_type=..., filename=...)]. *)
Record FileResponse : Type := {
  resp_path : string;
  resp_media_type : string;
  resp_filename : string
}.

(** ** What lives outside the repository

    [S] is the type of the states of the machine outside the process (file
    system, clock, whatever the agent keeps) and [F] the type of floats.
    Each operation takes a state and gives the next one; the ones Python
    lets fail give an [outcome].
    - [mkdtemp]: [tempfile.mkdtemp()];
    - [save path data]: [with open(path, "wb") as f: shutil.copyfileobj(src, f)];
    - [strftime_now]: [datetime.datetime.now().strftime("%Y-%m-%dT%H-%M-%S")];
    - [path_exists]: [os.path.exists];
    - [rmtree]: [shutil.rmtree];
    - [float_str]: [str] of a [float], as an f-string prints it;
    - [http_exception_str]: [str] of an [HTTPException], which the web
      framework defines. *)

Section Service.

Variables F S : Type.

Record Runtime : Type := {
  float_str : F -> string;
  http_exception_str : Z -> string -> string;
  mkdtemp : S -> outcome exn string * S;
  save : string -> string -> S -> outcome exn unit * S;
  strftime_now : S -> string;
  path_exists : string -> S -> bool;
  rmtree : string -> S -> outcome exn unit * S
}.

(** The agent as the handler sees it: [agent.opt.res_dir] and
    [agent.run_inference(...)], which returns a path or raises. *)
Record InferenceAgent : Type := {
  res_dir : string;
  run_inference : Call F -> S -> outcome base_exn string * S
}.

(** The parameters of [inference]. *)
Record Request : Type := {
  ref_image : UploadFile;
  audio : UploadFile;
  a_cfg_scale : F;
  r_cfg_scale : F;
  e_cfg_scale : F;
  emo : option string;
  nfe : Z;
  no_crop : bool;
  seed : Z
}.

(** The global [agent], the machine, what [print] wrote, and the calls the
    agent received (oldest first). *)
Record World : Type := {
  agent : option InferenceAgent;
  os : S;
  stdout : list string;
  calls : list (Call F)
}.

Definition with_os (w : World) (s : S) : World :=
  {| agent := agent w; os := s; stdout := stdout w; calls := calls w |}.

(** *** The monad of the handler *)

Definition M (A : Type) : Type := World -> outcome base_exn A * World.

Definition ret {A} (a : A) : M A := fun w => (Returned a, w).

Definition raise {A} (e : base_exn) : M A := fun w => (Raised e, w).

Definition bind {A B} (m : M A) (k : A -> M B) : M B :=
  fun w =>
    match m w with
    | (Returned a, w') => k a w'
    | (Raised e, w') => (Raised e, w')
    end.

(** [try: body / except Exception as e: handler e]: an instance of
    [Exception] goes to the handler, any other exception goes on. *)
Definition try_except {A} (body : M A) (handler : exn -> M A) : M A :=
  fun w =>
    match body w with
    | (Returned a, w') => (Returned a, w')
    | (Raised (Exception e), w') => handler e w'
    | (Raised (Fatal name), w') => (Raised (Fatal name), w')
    end.

(** [try: body / finally: final]: [final] runs on every way out of
    [body]; an exception of [final] replaces the result of [body]. *)
Definition try_finally {A} (body : M A) (final : M unit) : M A :=
  fun w =>
    match body w with
    | (r, w') =>
        match final w' with
        | (Returned _, w'') => (r, w'')
        | (Raised e, w'') => (Raised e, w'')
        end
    end.

(** An operation of the machine, run on the machine of the world. *)
Definition lift {A} (op : S -> outcome exn A * S) : M A :=
  fun w =>
    match op (os w) with
    | (Returned a, s) => (Returned a, with_os w s)
    | (Raised e, s) => (Raised (Exception e), with_os w s)
    end.

(** A call into code from outside the library, which may raise any
    exception. *)
Definition call_out {A} (op : S -> outcome base_exn A * S) : M A :=
  fun w => match op (os w) with (r, s) => (r, with_os w s) end.

Definition get_agent : M (option InferenceAgent) :=
  fun w => (Returned (agent w), w).

Definition print (line : string) : M unit :=
  fun w =>
    (Returned tt,
     {| agent := agent w; os := os w; stdout := stdout w ++ [line];
        calls := calls w |}).

(** [ag.run_inference] applied to the keyword arguments [c]: the call is
    recorded, then the agent runs. *)
Definition call_agent (ag : InferenceAgent) (c : Call F) : M string :=
  fun w =>
    match run_inference ag c (os w) with
    | (r, s) =>
        (r, {| agent := agent w; os := s; stdout := stdout w;
               calls := calls w ++ [c] |})
    end.

Variable rt : Runtime.

Definition now : M string := fun w => (Returned (strftime_now rt (os w)), w).

Definition exists_ (p : string) : M bool :=
  fun w => (Returned (path_exists rt p (os w)), w).

Definition exn_str (e : exn) : string :=
  match e with
  | HTTPException c d => http_exception_str rt c d
  | Error m => m
  end.

End Service.

Arguments float_str {F S} _ _.
Arguments http_exception_str {F S} _ _ _.
Arguments mkdtemp {F S} _ _.
Arguments save {F S} _ _ _ _.
Arguments strftime_now {F S} _ _.
Arguments path_exists {F S} _ _ _.
Arguments rmtree {F S} _ _ _.
Arguments res_dir {F S} _.
Arguments run_inference {F S} _ _ _.
Arguments ref_image {F} _.
Arguments audio {F} _.
Arguments a_cfg_scale {F} _.
Arguments r_cfg_scale {F} _.
Arguments e_cfg_scale {F} _.
Arguments emo {F} _.
Arguments nfe {F} _.
Arguments no_crop {F} _.
Arguments seed {F} _.
Arguments agent {F S} _.
Arguments os {F S} _.
Arguments stdout {F S} _.
Arguments calls {F S} _.
Arguments with_os {F S} _ _.
Arguments ret {F S A} _ _.
Arguments raise {F S A} _ _.
Arguments bind {F S A B} _ _ _.
Arguments try_except {F S A} _ _ _.
Arguments try_finally {F S A} _ _ _.
Arguments lift {F S A} _ _.
Arguments call_out {F S A} _ _.
Arguments get_agent {F S} _.
Arguments print {F S} _ _.
Arguments call_agent {F S} _ _ _.
Arguments now {F S} _ _.
Arguments exists_ {F S} _ _ _.
Arguments exn_str {F S} _ _.

Declare Scope py_scope.
Delimit Scope py_scope with py.
Notation "x <- m ;; k" := (bind m (fun x => k))
  (at level 61, m at next level, right associativity) : py_scope.
Notation "m ;; k" := (bind m (fun _ => k))
  (at level 61, right associativity) : py_scope.
Local Open Scope py_scope.

(** ** The handler of [POST /inference] *)

Section Inference.

Context {F S : Type}.
Variable rt : Runtime F S.

(** The texts of the source. *)
Definition detail_not_loaded : string := "모델이 아직 로드되지 않았습니다.".
Definition detail_no_video : string := "비디오 생성에 실패했습니다.".
Definition prefix_inference_error : string := "추론 중 오류 발생: ".
Definition prefix_cleanup_failed : string := "임시 디렉토리 삭제 실패: ".

(** [emo if emo else 'S2E']: [None] and the empty string are both false. *)
Definition emo_or_S2E (e : option string) : string :=
  match e with
  | Some s => if Py.truthy s then s else "S2E"
  | None => "S2E"
  end.

(** The f-string of the output file name:
    [{call_time}-{video_name}-{audio_name}-nfe{nfe}-seed{seed}-acfg{a_cfg_scale}-ecfg{e_cfg_scale}-{emo if emo else 'S2E'}.mp4]. *)
Definition res_video_name (call_time video_name audio_name : string)
    (req : Request F) : string :=
  call_time ++ "-" ++ video_name ++ "-" ++ audio_name
    ++ "-nfe" ++ Py.str_int (nfe req)
    ++ "-seed" ++ Py.str_int (seed req)
    ++ "-acfg" ++ float_str rt (a_cfg_scale req)
    ++ "-ecfg" ++ float_str rt (e_cfg_scale req)
    ++ "-" ++ emo_or_S2E (emo req) ++ ".mp4".

(** The path handed to the agent, for the time [call_time] read from the
    clock. *)
Definition res_video_path (ag : InferenceAgent F S) (call_time : string)
    (req : Request F) : string :=
  let video_name := fst (os_path.splitext (filename (ref_image req))) in
  let audio_name := fst (os_path.splitext (filename (audio req))) in
  os_path.join (res_dir ag) (res_video_name call_time video_name audio_name req).

(** The keyword arguments of the call
    [agent.run_inference(res_video_path=..., ..., verbose=True)]. *)
Definition run_inference_args (ag : InferenceAgent F S) (req : Request F)
    (temp_dir call_time : string) : Call F :=
  {| arg_res_video_path := res_video_path ag call_time req;
     arg_ref_path := os_path.join temp_dir (filename (ref_image req));
     arg_audio_path := os_path.join temp_dir (filename (audio req));
     arg_a_cfg_scale := a_cfg_scale req;
     arg_r_cfg_scale := r_cfg_scale req;
     arg_e_cfg_scale := e_cfg_scale req;
     arg_emo := emo_or_S2E (emo req);
     arg_nfe := nfe req;
     arg_no_crop := no_crop req;
     arg_seed := seed req;
     arg_verbose := true |}.

(** The body of the [try]. *)
Definition inference_try (ag : InferenceAgent F S) (req : Request F)
    (temp_dir : string) : M F S FileResponse :=
  let ref_path := os_path.join temp_dir (filename (ref_image req)) in
  let audio_path := os_path.join temp_dir (filename (audio req)) in
  lift (save rt ref_path (file (ref_image req))) ;;
  lift (save rt audio_path (file (audio req))) ;;
  call_time <- now rt ;;
  result_path <- call_agent ag (run_inference_args ag req temp_dir call_time) ;;
  found <- exists_ rt result_path ;;
  if negb found then raise (HTTPException 500 detail_no_video)
  else ret {| resp_path := result_path;
              resp_media_type := "video/mp4";
              resp_filename := os_path.basename result_path |}.

(** [except Exception as e]. *)
Definition inference_except (e : exn) : M F S FileResponse :=
  raise (HTTPException 500 (prefix_inference_error ++ exn_str rt e)).

(** The [finally] block. *)
Definition inference_finally (temp_dir : string) : M F S unit :=
  try_except (lift (rmtree rt temp_dir))
    (fun e => print (prefix_cleanup_failed ++ exn_str rt e)).

(** [inference]: it returns a [FileResponse] or raises; an [HTTPException]
    it raises is what the framework turns into the error response of that
    status code and detail. *)
Definition inference (req : Request F) : M F S FileResponse :=
  a <- get_agent ;;
  match a with
  | None => raise (HTTPException 503 detail_not_loaded)
  | Some ag =>
      temp_dir <- lift (mkdtemp rt) ;;
      try_finally
        (try_except (inference_try ag req temp_dir) inference_except)
        (inference_finally temp_dir)
  end.

(** [health_check]: [{"status": "healthy", "model_loaded": agent is not None}]. *)
Definition health_check (w : World F S) : string * bool :=
  ("healthy", match agent w with Some _ => true | None => false end).

End Inference.

(** The calls the agent received during one run of the handler. *)
Definition new_calls {F S} (rt : Runtime F S) (req : Request F) (w : World F S)
    : list (Call F) :=
  skipn (length (calls w)) (calls (snd (inference rt req w))).

(** The contract of [shutil.rmtree] the cleanup relies on: when it returns,
    the directory is gone. *)
Definition rmtree_removes {F S} (rt : Runtime F S) : Prop :=
  forall d s s', rmtree rt d s = (Returned tt, s') -> path_exists rt d s' = false.

(** The runtime [rt] with another [shutil.rmtree]. *)
Definition with_rmtree {F S} (rt : Runtime F S)
    (rm : string -> S -> outcome exn unit * S) : Runtime F S :=
  {| float_str := float_str rt;
     http_exception_str := http_exception_str rt;
     mkdtemp := mkdtemp rt;
     save := save rt;
     strftime_now := strftime_now rt;
     path_exists := path_exists rt;
     rmtree := rm |}.

(** [req] with another value of the form field [emo]. *)
Definition with_emo {F} (req : Request F) (e : option string) : Request F :=
  {| ref_image := ref_image req; audio := audio req;
     a_cfg_scale := a_cfg_scale req; r_cfg_scale := r_cfg_scale req;
     e_cfg_scale := e_cfg_scale req; emo := e; nfe := nfe req;
     no_crop := no_crop req; seed := seed req |}.

(** The file name as a reader who takes "base name" for [os.path.basename]
    would compute it: the directory part of both upload names dropped before
    the extension is. *)
Definition res_video_path_of_basenames {F S} (rt : Runtime F S)
    (ag : InferenceAgent F S) (call_time : string) (req : Request F) : string :=
  let video_name :=
    fst (os_path.splitext (os_path.basename (filename (ref_image req)))) in
  let audio_name :=
    fst (os_path.splitext (os_path.basename (filename (audio req)))) in
  os_path.join (res_dir ag) (res_video_name rt call_time video_name audio_name req).

(** The uploads are staged: [mkdtemp] gave [temp_dir] and both files were
    written, which left the machine in state [s]. *)
Definition staged {F S} (rt : Runtime F S) (req : Request F) (w : World F S)
    (temp_dir : string) (s : S) : Prop :=
  exists s1 s2,
    mkdtemp rt (os w) = (Returned temp_dir, s1)
    /\ save rt (os_path.join temp_dir (filename (ref_image req)))
         (file (ref_image req)) s1 = (Returned tt, s2)
    /\ save rt (os_path.join temp_dir (filename (audio req)))
         (file (audio req)) s2 = (Returned tt, s).

(** ** A small machine to run the handler on

    A file system that is the list of the paths that exist, a clock that
    shows one time, floats with an integral value (Python prints them with
    [.0]), and the [__str__] of Starlette's [HTTPException],
    [f"{status_code}: {detail}"]. *)

Module Sim.

Record Machine : Type := {
  paths : list string;
  rmtree_denied : bool
}.

Definition create (p : string) (m : Machine) : Machine :=
  {| paths := p :: paths m; rmtree_denied := rmtree_denied m |}.

Definition present (p : string) (m : Machine) : bool :=
  existsb (String.eqb p) (paths m).

(** [p] is [d] or lies below it. *)
Definition within (d p : string) : bool :=
  String.eqb d p || String.prefix (d ++ "/") p.

Definition remove_tree (d : string) (m : Machine)
    : outcome exn unit * Machine :=
  if rmtree_denied m then (Raised (Error "[Errno 13] Permission denied"), m)
  else if present d m then
    (Returned tt,
     {| paths := filter (fun p => negb (within d p)) (paths m);
        rmtree_denied := rmtree_denied m |})
  else (Raised (Error "[Errno 2] No such file or directory"), m).

Definition scratch : string := "/tmp/tmpk2v9x1".

Definition clock : string := "2025-03-01T12-00-00".

Definition rt : Runtime Z Machine :=
  {| float_str := fun x => Py.str_int x ++ ".0";
     http_exception_str := fun c d => Py.str_int c ++ ": " ++ d;
     mkdtemp := fun m => (Returned scratch, create scratch m);
     save := fun p _ m => (Returned tt, create p m);
     strftime_now := fun _ => clock;
     path_exists := present;
     rmtree := remove_tree |}.

(** An agent that writes the video where it is asked to. *)
Definition agent_writes : InferenceAgent Z Machine :=
  {| res_dir := "results";
     run_inference := fun c m =>
       (Returned (arg_res_video_path c), create (arg_res_video_path c) m) |}.

(** An agent that returns the path and writes nothing. *)
Definition agent_silent : InferenceAgent Z Machine :=
  {| res_dir := "results";
     run_inference := fun c m => (Returned (arg_res_video_path c), m) |}.

(** An agent that raises. *)
Definition agent_raises : InferenceAgent Z Machine :=
  {| res_dir := "results";
     run_inference := fun _ m =>
       (Raised (Exception (Error "CUDA out of memory")), m) |}.

(** An agent that is interrupted. *)
Definition agent_interrupted : InferenceAgent Z Machine :=
  {| res_dir := "results";
     run_inference := fun _ m => (Raised (Fatal "KeyboardInterrupt"), m) |}.

Definition machine : Machine := {| paths := ["results"]; rmtree_denied := false |}.

Definition machine_denied : Machine :=
  {| paths := ["results"]; rmtree_denied := true |}.

Definition world (a : option (InferenceAgent Z Machine)) (m : Machine)
    : World Z Machine :=
  {| agent := a; os := m; stdout := []; calls := [] |}.

(** A request with the default values of the form fields. *)
Definition request (ref_name audio_name : string) (e : option string) : Request Z :=
  {| ref_image := {| filename := ref_name; file := "jpeg" |};
     audio := {| filename := audio_name; file := "wav" |};
     a_cfg_scale := 2; r_cfg_scale := 1; e_cfg_scale := 1;
     emo := e; nfe := 10; no_crop := false; seed := 25 |}.

Definition defaults : Request Z := request "face.jpg" "voice.wav" None.

(** The machine once [mkdtemp] and the two uploads of [req] are done. *)
Definition staged_machine (req : Request Z) (m : Machine) : Machine :=
  create (os_path.join scratch (filename (audio req)))
    (create (os_path.join scratch (filename (ref_image req)))
       (create scratch m)).

End Sim.

(** ** Start-up

    [startup_event] builds the options, the agent and the results directory.
    Its collaborators are outside the repository:
    - [parse]: [InferenceOptions().parse()], which may raise any exception;
    - [new_agent]: the constructor [InferenceAgent(opt)], which may raise any
      exception; [opt] is an object the constructor may change, so it gives
      back, with the agent, the options as they are once it is done;
    - [makedirs path]: [os.makedirs(path, exist_ok=True)]. *)

(** The attributes of [opt] the service touches; [opt_rest] stands for all
    the others. *)
Record Options (O : Type) : Type := {
  opt_rank : Z;
  opt_ngpus : Z;
  opt_res_dir : string;
  opt_rest : O
}.

Arguments opt_rank {O} _.
Arguments opt_ngpus {O} _.
Arguments opt_res_dir {O} _.
Arguments opt_rest {O} _.

Record Startup (F S O : Type) : Type := {
  parse : S -> outcome base_exn (Options O) * S;
  new_agent :
    Options O -> S -> outcome base_exn (InferenceAgent F S * Options O) * S;
  makedirs : string -> S -> outcome exn unit * S
}.

Arguments parse {F S O} _ _.
Arguments new_agent {F S O} _ _ _.
Arguments makedirs {F S O} _ _ _.

Section StartupEvent.

Context {F S O : Type}.
Variable st : Startup F S O.

(** [global agent; agent = a]. *)
Definition set_agent (a : InferenceAgent F S) : M F S unit :=
  fun w =>
    (Returned tt,
     {| agent := Some a; os := os w; stdout := stdout w; calls := calls w |}).

Definition line_loaded : string := "✓ FLOAT 모델이 성공적으로 로드되었습니다.".

(** [opt.rank = 0; opt.ngpus = 1]. *)
Definition single_gpu (opt : Options O) : Options O :=
  {| opt_rank := 0; opt_ngpus := 1; opt_res_dir := opt_res_dir opt;
     opt_rest := opt_rest opt |}.

(** [startup_event]. *)
Definition startup_event : M F S unit :=
  opt <- call_out (parse st) ;;
  built <- call_out (new_agent st (single_gpu opt)) ;;
  set_agent (fst built) ;;
  lift (makedirs st (opt_res_dir (snd built))) ;;
  print line_loaded.

End StartupEvent.

(** [root]: the two entries of the dictionary it returns. *)
Definition root : list (string * string) :=
  [("status", "running"); ("message", "FLOAT Inference API is running")].

(** The start-up collaborators [st] with another [parse]. *)
Definition with_parse {F S O} (st : Startup F S O)
    (p : S -> outcome base_exn (Options O) * S) : Startup F S O :=
  {| parse := p; new_agent := new_agent st; makedirs := makedirs st |}.


(** The start-up collaborators of the simulated machine: options that ask
    for the directory [results], and the agent that writes its video. *)
Definition sim_startup (makedirs_denied : bool) : Startup Z Sim.Machine unit :=
  {| parse := fun m =>
       (Returned {| opt_rank := 3; opt_ngpus := 8; opt_res_dir := "results";
                    opt_rest := tt |}, m);
     new_agent := fun opt m => (Returned (Sim.agent_writes, opt), m);
     makedirs := fun p m =>
       if makedirs_denied then (Raised (Error "[Errno 13] Permission denied"), m)
       else (Returned tt, if Sim.present p m then m else Sim.create p m) |}.

Definition sim_empty : Sim.Machine :=
  {| Sim.paths := []; Sim.rmtree_denied := false |}.

(** The simulated machine with faults: a full disk makes [mkdtemp] raise,
    and the paths [unwritable] picks cannot be written. *)
Definition sim_faulty (no_space : bool) (unwritable : string -> bool)
    : Runtime Z Sim.Machine :=
  {| float_str := float_str Sim.rt;
     http_exception_str := http_exception_str Sim.rt;
     mkdtemp := fun m =>
       if no_space then (Raised (Error "[Errno 28] No space left on device"), m)
       else mkdtemp Sim.rt m;
     save := fun p data m =>
       if unwritable p then (Raised (Error "[Errno 13] Permission denied"), m)
       else save Sim.rt p data m;
     strftime_now := strftime_now Sim.rt;
     path_exists := path_exists Sim.rt;
     rmtree := rmtree Sim.rt |}.

(** ** A machine that keeps the writes

    [recording rt] is the runtime [rt] on a machine that also keeps, oldest
    first, the path and the bytes of every write asked of it.  The agent
    and the world are carried over to that machine; the handler is the same. *)

Definition recording {F S} (rt : Runtime F S)
    : Runtime F (S * list (string * string)) :=
  {| float_str := float_str rt;
     http_exception_str := http_exception_str rt;
     mkdtemp := fun m =>
       match mkdtemp rt (fst m) with (r, s) => (r, (s, snd m)) end;
     save := fun p data m =>
       match save rt p data (fst m) with
       | (r, s) => (r, (s, (snd m ++ [(p, data)])%list))
       end;
     strftime_now := fun m => strftime_now rt (fst m);
     path_exists := fun p m => path_exists rt p (fst m);
     rmtree := fun d m =>
       match rmtree rt d (fst m) with (r, s) => (r, (s, snd m)) end |}.

Definition recording_agent {F S} (ag : InferenceAgent F S)
    : InferenceAgent F (S * list (string * string)) :=
  {| res_dir := res_dir ag;
     run_inference := fun c m =>
       match run_inference ag c (fst m) with (r, s) => (r, (s, snd m)) end |}.

Definition recording_world {F S} (w : World F S)
    : World F (S * list (string * string)) :=
  {| agent := option_map recording_agent (agent w);
     os := (os w, []);
     stdout := stdout w;
     calls := calls w |}.

(** The writes the handler asks for while it serves [req] in [w]. *)
Definition writes {F S} (rt : Runtime F S) (req : Request F) (w : World F S)
    : list (string * string) :=
  snd (os (snd (inference (recording rt) req (recording_world w)))).

(** ** The library functions on examples *)

Example splitext_png : os_path.splitext "face.png" = ("face", ".png").
Proof. reflexivity. Qed.

Example splitext_two_dots : os_path.splitext "a.tar.gz" = ("a.tar", ".gz").
Proof. reflexivity. Qed.

Example splitext_hidden : os_path.splitext ".bashrc" = (".bashrc", "").
Proof. reflexivity. Qed.

Example splitext_dir_dot : os_path.splitext "a.b/c" = ("a.b/c", "").
Proof. reflexivity. Qed.

Example splitext_keeps_dir : os_path.splitext "d/face.png" = ("d/face", ".png").
Proof. reflexivity. Qed.

Example basename_path : os_path.basename "results/out.mp4" = "out.mp4".
Proof. reflexivity. Qed.

Example join_plain : os_path.join "results" "x.mp4" = "results/x.mp4".
Proof. reflexivity. Qed.

Example join_slash : os_path.join "results/" "x.mp4" = "results/x.mp4".
Proof. reflexivity. Qed.

Example join_absolute : os_path.join "/tmp/t" "/etc/x" = "/etc/x".
Proof. reflexivity. Qed.

Example str_int_neg : Py.str_int (-25) = "-25".
Proof. reflexivity. Qed.

Example sim_default_run :
  inference Sim.rt Sim.defaults (Sim.world (Some Sim.agent_writes) Sim.machine)
  = (Returned
       {| resp_path := "results/2025-03-01T12-00-00-face-voice-nfe10-seed25-acfg2.0-ecfg1.0-S2E.mp4";
          resp_media_type := "video/mp4";
          resp_filename := "2025-03-01T12-00-00-face-voice-nfe10-seed25-acfg2.0-ecfg1.0-S2E.mp4" |},
     {| agent := Some Sim.agent_writes;
        os := {| Sim.paths :=
                   ["results/2025-03-01T12-00-00-face-voice-nfe10-seed25-acfg2.0-ecfg1.0-S2E.mp4";
                    "results"];
                 Sim.rmtree_denied := false |};
        stdout := [];
        calls := new_calls Sim.rt Sim.defaults
                   (Sim.world (Some Sim.agent_writes) Sim.machine) |}).
Proof. reflexivity. Qed.

(** ** Running the handler *)

Lemma skipn_length_app {A} (l l' : list A) : skipn (length l) (l ++ l') = l'.
Proof. induction l; simpl; auto. Qed.

Lemma skipn_length {A} (l : list A) : skipn (length l) l = [].
Proof. induction l; simpl; auto. Qed.

Ltac unfold_handler :=
  unfold inference, inference_try, inference_finally, inference_except,
    try_finally, try_except, lift, bind, get_agent, now, call_agent, exists_,
    raise, ret, print, with_os.

Ltac simpl_world :=
  cbn [fst snd agent os stdout calls negb ref_image audio a_cfg_scale
       r_cfg_scale e_cfg_scale emo nfe no_crop seed].

Ltac run_step :=
  match goal with
  | |- context [mkdtemp ?r ?s] => destruct (mkdtemp r s) as [[?|?] ?] eqn:?
  | |- context [save ?r ?p ?d ?s] => destruct (save r p d s) as [[[]|?] ?] eqn:?
  | |- context [run_inference ?a ?c ?s] =>
      destruct (run_inference a c s) as [[?|[?|?]] ?] eqn:?
  | |- context [path_exists ?r ?p ?s] => destruct (path_exists r p s) eqn:?
  | |- context [rmtree ?r ?d ?s] => destruct (rmtree r d s) as [[[]|?] ?] eqn:?
  end;
  simpl_world.

Ltac run := unfold_handler; simpl_world; repeat run_step.

Section Runs.

Context {F S : Type}.
Variable rt : Runtime F S.

(** Without an agent the handler raises at once and touches nothing. *)
Lemma inference_not_loaded (req : Request F) (w : World F S) :
  agent w = None ->
  inference rt req w = (Raised (HTTPException 503 detail_not_loaded), w).
Proof. intros H. unfold inference, bind, get_agent, raise. now rewrite H. Qed.

(** The agent is called at most once, with the arguments the request and
    the clock determine. *)
Lemma new_calls_spec (req : Request F) (w : World F S) ag c :
  agent w = Some ag -> In c (new_calls rt req w) ->
  exists d s, c = run_inference_args rt ag req d (strftime_now rt s)
              /\ new_calls rt req w = [c].
Proof.
  unfold new_calls. intros Hag. run. rewrite Hag. run.
  all: rewrite ?skipn_length, ?skipn_length_app; cbn [In]; try tauto.
  all: intros [<-|[]]; eauto.
Qed.

(** What the [finally] block leaves behind. *)
Lemma inference_finally_run (d : string) (w : World F S) :
  inference_finally rt d w =
  (Returned tt,
   match rmtree rt d (os w) with
   | (Returned _, s) => with_os w s
   | (Raised e, s) =>
       {| agent := agent w; os := s;
          stdout := stdout w ++ [prefix_cleanup_failed ++ exn_str rt e];
          calls := calls w |}
   end).
Proof. run; reflexivity. Qed.

(** Once a scratch directory is allocated, the handler is the [try] with
    its [except], followed by the [finally]. *)
Lemma inference_allocated (req : Request F) (w : World F S) ag d s1 :
  agent w = Some ag -> mkdtemp rt (os w) = (Returned d, s1) ->
  inference rt req w =
  (fst (try_except (inference_try rt ag req d) (inference_except rt) (with_os w s1)),
   snd (inference_finally rt d
          (snd (try_except (inference_try rt ag req d) (inference_except rt)
                  (with_os w s1))))).
Proof.
  intros Hag Hmk. unfold inference at 1, bind at 1, get_agent. rewrite Hag.
  unfold bind, lift. rewrite Hmk. unfold try_finally.
  destruct (try_except _ _ _) as [r w2]. cbn [fst snd].
  rewrite inference_finally_run. reflexivity.
Qed.

(** The [try] with its [except], once both uploads are staged. *)
Lemma inference_try_staged (req : Request F) (w : World F S) ag d s3 r s4 :
  staged rt req w d s3 ->
  run_inference ag (run_inference_args rt ag req d (strftime_now rt s3)) s3 = (r, s4) ->
  forall s1, mkdtemp rt (os w) = (Returned d, s1) ->
  try_except (inference_try rt ag req d) (inference_except rt) (with_os w s1) =
  (match r with
   | Returned p =>
       if path_exists rt p s4
       then Returned {| resp_path := p; resp_media_type := "video/mp4";
                        resp_filename := os_path.basename p |}
       else Raised (HTTPException 500
                      (prefix_inference_error
                         ++ exn_str rt (HTTPException 500 detail_no_video)))
   | Raised (Exception e) =>
       Raised (HTTPException 500 (prefix_inference_error ++ exn_str rt e))
   | Raised (Fatal name) => Raised (Fatal name)
   end,
   {| agent := agent w; os := s4; stdout := stdout w;
      calls := calls w ++ [run_inference_args rt ag req d (strftime_now rt s3)] |}).
Proof.
  intros (s1' & s2 & Hmk & Hr & Ha) Hrun s1 Hmk'.
  rewrite Hmk in Hmk'. injection Hmk' as <-.
  unfold_handler. cbn [fst snd agent os stdout calls].
  rewrite Hr. cbn [fst snd agent os stdout calls]. rewrite Ha.
  cbn [fst snd agent os stdout calls]. rewrite Hrun.
  destruct r as [p|[e|name]]; cbn [fst snd agent os stdout calls];
    [|reflexivity|reflexivity].
  destruct (path_exists rt p s4); reflexivity.
Qed.

(** Once both uploads are staged the agent is called, once. *)
Lemma new_calls_staged (req : Request F) (w : World F S) ag d s3 :
  agent w = Some ag -> staged rt req w d s3 ->
  new_calls rt req w = [run_inference_args rt ag req d (strftime_now rt s3)].
Proof.
  intros Hag Hst. assert (Hst' := Hst). destruct Hst' as (s1 & s2 & Hmk & _).
  unfold new_calls. rewrite (inference_allocated req w ag d s1 Hag Hmk).
  destruct (run_inference ag (run_inference_args rt ag req d (strftime_now rt s3))
              s3) as [r s4] eqn:Hrun.
  rewrite (inference_try_staged req w ag d s3 r s4 Hst Hrun s1 Hmk).
  cbn [snd]. rewrite inference_finally_run. cbn [snd os].
  destruct (rmtree rt d s4) as [[[]|e] s5]; cbn [calls with_os];
    apply skipn_length_app.
Qed.

End Runs.

(** ** The simulated machine meets the contract of [rmtree] *)

Lemma sim_rmtree_removes : rmtree_removes Sim.rt.
Proof.
  intros d m m' H. cbn in H. unfold Sim.remove_tree in H.
  destruct (Sim.rmtree_denied m); [discriminate|].
  destruct (Sim.present d m); [|discriminate].
  injection H as <-. cbn. unfold Sim.present. cbn [Sim.paths].
  induction (Sim.paths m) as [|p l IH]; [reflexivity|].
  cbn [filter]. destruct (Sim.within d p) eqn:E; cbn [negb]; [exact IH|].
  cbn [existsb]. rewrite IH. unfold Sim.within in E.
  apply orb_false_elim in E as [-> _]. reflexivity.
Qed.

(** ** Strings *)

Lemma substring_whole (s : string) : substring 0 (String.length s) s = s.
Proof. induction s as [|a s IH]; cbn; [reflexivity|now rewrite IH]. Qed.

(** A name without separator is its own base name. *)
Lemma basename_without_sep (p : string) :
  Py.rfind p os_path.sep = -1 -> os_path.basename p = p.
Proof.
  intros H. unfold os_path.basename, Py.slice_from. rewrite H. cbn [Z.add Z.to_nat].
  change (Z.to_nat (-1 + 1)) with 0%nat.
  rewrite Nat.sub_0_r. apply substring_whole.
Qed.

(** The two texts of a 500 answer begin with different bytes. *)
Lemma wrapped_detail_differs (tail : string) :
  prefix_inference_error ++ tail <> detail_no_video.
Proof. cbn. discriminate. Qed.

(** ** The claims *)

(** C5: while the agent is not initialised ([agent is None]) the handler
    rejects every request with status 503 and the detail that says the model
    is not loaded yet, and the agent's inference operation is not called. *)
Theorem not_loaded_is_503 {F S} (rt : Runtime F S) (req : Request F) (w : World F S) :
  agent w = None ->
  fst (inference rt req w)
  = Raised (HTTPException 503 "모델이 아직 로드되지 않았습니다.")
  /\ new_calls rt req w = [].
Proof.
  intros H. unfold new_calls. rewrite (inference_not_loaded rt req w H).
  split; [reflexivity|apply skipn_length].
Qed.

Lemma not_loaded_is_503_witness :
  fst (inference Sim.rt Sim.defaults (Sim.world None Sim.machine))
  = Raised (HTTPException 503 "모델이 아직 로드되지 않았습니다.")
  /\ new_calls Sim.rt Sim.defaults (Sim.world None Sim.machine) = [].
Proof.
  apply (not_loaded_is_503 Sim.rt Sim.defaults (Sim.world None Sim.machine)).
  reflexivity.
Defined.

(** C8: a request rejected because the agent is not initialised leaves the
    world as it was: no scratch directory is allocated and nothing is
    written, whatever [mkdtemp] and the other operations would have done. *)
Theorem not_loaded_leaves_world {F S} (rt : Runtime F S) (req : Request F)
    (w : World F S) :
  agent w = None -> snd (inference rt req w) = w.
Proof. intros H. now rewrite (inference_not_loaded rt req w H). Qed.

Lemma not_loaded_leaves_world_witness :
  snd (inference Sim.rt Sim.defaults (Sim.world None Sim.machine))
  = Sim.world None Sim.machine.
Proof.
  apply (not_loaded_leaves_world Sim.rt Sim.defaults (Sim.world None Sim.machine)).
  reflexivity.
Defined.

(** C9: two requests that agree on every input but [r_cfg_scale] and
    [no_crop], handled in the same world (hence at the same time), hand the
    agent the same output path; the path is the same function of the time
    for both. *)
Theorem path_ignores_r_cfg_and_no_crop {F S} (rt : Runtime F S)
    (req1 req2 : Request F) (w : World F S) :
  ref_image req1 = ref_image req2 -> audio req1 = audio req2 ->
  a_cfg_scale req1 = a_cfg_scale req2 -> e_cfg_scale req1 = e_cfg_scale req2 ->
  emo req1 = emo req2 -> nfe req1 = nfe req2 -> seed req1 = seed req2 ->
  map arg_res_video_path (new_calls rt req1 w)
  = map arg_res_video_path (new_calls rt req2 w)
  /\ length (new_calls rt req1 w) = length (new_calls rt req2 w)
  /\ forall ag call_time,
       res_video_path rt ag call_time req1 = res_video_path rt ag call_time req2.
Proof.
  destruct req1 as [ri1 au1 a1 r1 e1 em1 n1 c1 sd1].
  destruct req2 as [ri2 au2 a2 r2 e2 em2 n2 c2 sd2].
  cbn [ref_image audio a_cfg_scale e_cfg_scale emo nfe seed].
  intros <- <- <- <- <- <- <-.
  assert (Hpath : forall ag t,
    res_video_path rt ag t (Build_Request F ri1 au1 a1 r1 e1 em1 n1 c1 sd1)
    = res_video_path rt ag t (Build_Request F ri1 au1 a1 r2 e1 em1 n1 c2 sd1))
    by reflexivity.
  split; [|split; [|exact Hpath]].
  - unfold new_calls. unfold inference, bind, get_agent.
    destruct (agent w) as [ag|]; [|reflexivity].
    run; rewrite ?skipn_length, ?skipn_length_app; reflexivity.
  - unfold new_calls. unfold inference, bind, get_agent.
    destruct (agent w) as [ag|]; [|reflexivity].
    run; rewrite ?skipn_length, ?skipn_length_app; reflexivity.
Qed.

Lemma path_ignores_r_cfg_and_no_crop_witness :
  map arg_res_video_path
    (new_calls Sim.rt Sim.defaults (Sim.world (Some Sim.agent_writes) Sim.machine))
  = map arg_res_video_path
      (new_calls Sim.rt
         {| ref_image := ref_image Sim.defaults; audio := audio Sim.defaults;
            a_cfg_scale := 2; r_cfg_scale := 7; e_cfg_scale := 1; emo := None;
            nfe := 10; no_crop := true; seed := 25 |}
         (Sim.world (Some Sim.agent_writes) Sim.machine))
  /\ length (new_calls Sim.rt Sim.defaults
               (Sim.world (Some Sim.agent_writes) Sim.machine))
     = length (new_calls Sim.rt
         {| ref_image := ref_image Sim.defaults; audio := audio Sim.defaults;
            a_cfg_scale := 2; r_cfg_scale := 7; e_cfg_scale := 1; emo := None;
            nfe := 10; no_crop := true; seed := 25 |}
         (Sim.world (Some Sim.agent_writes) Sim.machine))
  /\ forall ag call_time,
       res_video_path Sim.rt ag call_time Sim.defaults
       = res_video_path Sim.rt ag call_time
           {| ref_image := ref_image Sim.defaults; audio := audio Sim.defaults;
              a_cfg_scale := 2; r_cfg_scale := 7; e_cfg_scale := 1; emo := None;
              nfe := 10; no_crop := true; seed := 25 |}.
Proof.
  apply (path_ignores_r_cfg_and_no_crop Sim.rt Sim.defaults
           {| ref_image := ref_image Sim.defaults; audio := audio Sim.defaults;
              a_cfg_scale := 2; r_cfg_scale := 7; e_cfg_scale := 1; emo := None;
              nfe := 10; no_crop := true; seed := 25 |}
           (Sim.world (Some Sim.agent_writes) Sim.machine));
    reflexivity.
Defined.

(** C4: when [emo] is absent or the empty string the emotion is the literal
    [S2E], which is both the [emo] argument of the agent's call and the last
    component of the output file name; a non-empty [emo] takes its place in
    both. *)
Theorem emotion_label_or_S2E {F S} (rt : Runtime F S) (req : Request F)
    (w : World F S) (ag : InferenceAgent F S) (c : Call F) :
  agent w = Some ag -> In c (new_calls rt req w) ->
  exists label,
    (emo req = None \/ emo req = Some "" -> label = "S2E")
    /\ (forall s, emo req = Some s -> s <> "" -> label = s)
    /\ arg_emo c = label
    /\ exists call_time,
         arg_res_video_path c =
         os_path.join (res_dir ag)
           (call_time
              ++ "-" ++ fst (os_path.splitext (filename (ref_image req)))
              ++ "-" ++ fst (os_path.splitext (filename (audio req)))
              ++ "-nfe" ++ Py.str_int (nfe req)
              ++ "-seed" ++ Py.str_int (seed req)
              ++ "-acfg" ++ float_str rt (a_cfg_scale req)
              ++ "-ecfg" ++ float_str rt (e_cfg_scale req)
              ++ "-" ++ label ++ ".mp4").
Proof.
  intros Hag Hin.
  destruct (new_calls_spec rt req w ag c Hag Hin) as (d & s & -> & _).
  exists (emo_or_S2E (emo req)). repeat split.
  - intros [-> | ->]; reflexivity.
  - intros s' -> Hs. destruct s'; [contradiction|reflexivity].
  - exists (strftime_now rt s). reflexivity.
Qed.

Lemma emotion_label_or_S2E_witness :
  exists label,
    (emo Sim.defaults = None \/ emo Sim.defaults = Some "" -> label = "S2E")
    /\ (forall s, emo Sim.defaults = Some s -> s <> "" -> label = s)
    /\ arg_emo (run_inference_args Sim.rt Sim.agent_writes Sim.defaults
                  Sim.scratch Sim.clock) = label
    /\ exists call_time,
         arg_res_video_path
           (run_inference_args Sim.rt Sim.agent_writes Sim.defaults
              Sim.scratch Sim.clock) =
         os_path.join "results"
           (call_time ++ "-" ++ "face" ++ "-" ++ "voice"
              ++ "-nfe" ++ "10" ++ "-seed" ++ "25" ++ "-acfg" ++ "2.0"
              ++ "-ecfg" ++ "1.0" ++ "-" ++ label ++ ".mp4").
Proof.
  apply (emotion_label_or_S2E Sim.rt Sim.defaults
           (Sim.world (Some Sim.agent_writes) Sim.machine) Sim.agent_writes
           (run_inference_args Sim.rt Sim.agent_writes Sim.defaults
              Sim.scratch Sim.clock)).
  - reflexivity.
  - left. reflexivity.
Defined.

(** C10: a non-empty [emo] is not checked against the vocabulary of
    emotions.  Whatever the string, once the uploads are staged the agent is
    called, once, with that string unchanged as its [emo] argument and as
    the last component of the output file name; staging and the call happen
    alike for every other value of [emo]. *)
Theorem emo_passed_verbatim {F S} (rt : Runtime F S) (req : Request F)
    (w : World F S) (ag : InferenceAgent F S) (d : string) (s3 : S)
    (s : string) :
  agent w = Some ag -> staged rt req w d s3 -> emo req = Some s -> s <> "" ->
  (exists c,
     new_calls rt req w = [c]
     /\ arg_emo c = s
     /\ arg_res_video_path c =
        os_path.join (res_dir ag)
          (strftime_now rt s3
             ++ "-" ++ fst (os_path.splitext (filename (ref_image req)))
             ++ "-" ++ fst (os_path.splitext (filename (audio req)))
             ++ "-nfe" ++ Py.str_int (nfe req)
             ++ "-seed" ++ Py.str_int (seed req)
             ++ "-acfg" ++ float_str rt (a_cfg_scale req)
             ++ "-ecfg" ++ float_str rt (e_cfg_scale req)
             ++ "-" ++ s ++ ".mp4"))
  /\ forall other,
       staged rt (with_emo req other) w d s3
       /\ length (new_calls rt (with_emo req other) w) = 1%nat.
Proof.
  intros Hag Hst Hemo Hs. split.
  - exists (run_inference_args rt ag req d (strftime_now rt s3)).
    split; [exact (new_calls_staged rt req w ag d s3 Hag Hst)|].
    assert (Hl : emo_or_S2E (emo req) = s).
    { rewrite Hemo. destruct s; [contradiction|reflexivity]. }
    split; [exact Hl|].
    cbn [arg_res_video_path run_inference_args].
    unfold res_video_path, res_video_name. now rewrite Hl.
  - intros other.
    assert (Hst' : staged rt (with_emo req other) w d s3) by exact Hst.
    split; [exact Hst'|].
    now rewrite (new_calls_staged rt (with_emo req other) w ag d s3 Hag Hst').
Qed.

Lemma emo_passed_verbatim_witness :
  (exists c,
     new_calls Sim.rt (Sim.request "face.jpg" "voice.wav" (Some "bored"))
       (Sim.world (Some Sim.agent_writes) Sim.machine) = [c]
     /\ arg_emo c = "bored"
     /\ arg_res_video_path c =
        os_path.join "results"
          (Sim.clock ++ "-" ++ "face" ++ "-" ++ "voice"
             ++ "-nfe" ++ "10" ++ "-seed" ++ "25" ++ "-acfg" ++ "2.0"
             ++ "-ecfg" ++ "1.0" ++ "-" ++ "bored" ++ ".mp4"))
  /\ forall other,
       staged Sim.rt
         (with_emo (Sim.request "face.jpg" "voice.wav" (Some "bored")) other)
         (Sim.world (Some Sim.agent_writes) Sim.machine) Sim.scratch
         (Sim.staged_machine (Sim.request "face.jpg" "voice.wav" (Some "bored"))
            Sim.machine)
       /\ length
            (new_calls Sim.rt
               (with_emo (Sim.request "face.jpg" "voice.wav" (Some "bored")) other)
               (Sim.world (Some Sim.agent_writes) Sim.machine)) = 1%nat.
Proof.
  apply (emo_passed_verbatim Sim.rt
           (Sim.request "face.jpg" "voice.wav" (Some "bored"))
           (Sim.world (Some Sim.agent_writes) Sim.machine) Sim.agent_writes
           Sim.scratch
           (Sim.staged_machine (Sim.request "face.jpg" "voice.wav" (Some "bored"))
              Sim.machine)
           "bored").
  - reflexivity.
  - do 2 eexists. repeat split.
  - reflexivity.
  - discriminate.
Defined.

(** C1, as the handler computes it: the output path is the results
    directory joined with
    [<timestamp>-<R without its extension>-<A without its extension>-nfe<nfe>-seed<seed>-acfg<a_cfg_scale>-ecfg<e_cfg_scale>-<emo or S2E>.mp4],
    where the extension is cut by [os.path.splitext], which keeps the
    directory part of an upload name; for upload names without a separator
    these are the base names without extension.  Nothing but the time read
    from the clock varies: with a clock that shows one time, any two runs on
    the same request and results directory compute the same path. *)
Theorem output_path_pattern {F S} (rt : Runtime F S) (req : Request F)
    (w : World F S) (ag : InferenceAgent F S) (c : Call F) :
  agent w = Some ag -> In c (new_calls rt req w) ->
  (exists s,
     arg_res_video_path c =
     os_path.join (res_dir ag)
       (strftime_now rt s
          ++ "-" ++ fst (os_path.splitext (filename (ref_image req)))
          ++ "-" ++ fst (os_path.splitext (filename (audio req)))
          ++ "-nfe" ++ Py.str_int (nfe req)
          ++ "-seed" ++ Py.str_int (seed req)
          ++ "-acfg" ++ float_str rt (a_cfg_scale req)
          ++ "-ecfg" ++ float_str rt (e_cfg_scale req)
          ++ "-" ++ emo_or_S2E (emo req) ++ ".mp4")
     /\ (Py.rfind (filename (ref_image req)) os_path.sep = -1 ->
         Py.rfind (filename (audio req)) os_path.sep = -1 ->
         arg_res_video_path c
         = res_video_path_of_basenames rt ag (strftime_now rt s) req))
  /\ forall t, (forall s, strftime_now rt s = t) ->
       forall w' ag' c',
         agent w' = Some ag' -> res_dir ag' = res_dir ag ->
         In c' (new_calls rt req w') ->
         arg_res_video_path c' = arg_res_video_path c.
Proof.
  intros Hag Hin.
  destruct (new_calls_spec rt req w ag c Hag Hin) as (d & s & -> & _).
  split.
  - exists s. split; [reflexivity|].
    intros HR HA. cbn [arg_res_video_path run_inference_args].
    unfold res_video_path, res_video_path_of_basenames.
    now rewrite (basename_without_sep _ HR), (basename_without_sep _ HA).
  - intros t Ht w' ag' c' Hag' Hdir Hin'.
    destruct (new_calls_spec rt req w' ag' c' Hag' Hin') as (d' & s' & -> & _).
    cbn [arg_res_video_path run_inference_args]. unfold res_video_path.
    now rewrite Hdir, (Ht s), (Ht s').
Qed.

Lemma output_path_pattern_witness :
  (exists s,
     arg_res_video_path
       (run_inference_args Sim.rt Sim.agent_writes Sim.defaults Sim.scratch Sim.clock)
     = os_path.join "results"
         (strftime_now Sim.rt s ++ "-" ++ "face" ++ "-" ++ "voice"
            ++ "-nfe" ++ "10" ++ "-seed" ++ "25" ++ "-acfg" ++ "2.0"
            ++ "-ecfg" ++ "1.0" ++ "-" ++ "S2E" ++ ".mp4")
     /\ (Py.rfind "face.jpg" os_path.sep = -1 ->
         Py.rfind "voice.wav" os_path.sep = -1 ->
         arg_res_video_path
           (run_inference_args Sim.rt Sim.agent_writes Sim.defaults
              Sim.scratch Sim.clock)
         = res_video_path_of_basenames Sim.rt Sim.agent_writes
             (strftime_now Sim.rt s) Sim.defaults))
  /\ forall t, (forall s, strftime_now Sim.rt s = t) ->
       forall w' ag' c',
         agent w' = Some ag' -> res_dir ag' = "results" ->
         In c' (new_calls Sim.rt Sim.defaults w') ->
         arg_res_video_path c'
         = arg_res_video_path
             (run_inference_args Sim.rt Sim.agent_writes Sim.defaults
                Sim.scratch Sim.clock).
Proof.
  apply (output_path_pattern Sim.rt Sim.defaults
           (Sim.world (Some Sim.agent_writes) Sim.machine) Sim.agent_writes
           (run_inference_args Sim.rt Sim.agent_writes Sim.defaults
              Sim.scratch Sim.clock)).
  - reflexivity.
  - left. reflexivity.
Defined.

(** C1 as stated fails: for the upload name [/tmp/face.jpg] the handler
    keeps the directory in the file name, where the base name without
    extension is [face]. *)
Lemma output_path_keeps_upload_directory :
  map arg_res_video_path
    (new_calls Sim.rt (Sim.request "/tmp/face.jpg" "voice.wav" None)
       (Sim.world (Some Sim.agent_writes) Sim.machine))
  = ["results/2025-03-01T12-00-00-/tmp/face-voice-nfe10-seed25-acfg2.0-ecfg1.0-S2E.mp4"]
  /\ res_video_path_of_basenames Sim.rt Sim.agent_writes Sim.clock
       (Sim.request "/tmp/face.jpg" "voice.wav" None)
     = "results/2025-03-01T12-00-00-face-voice-nfe10-seed25-acfg2.0-ecfg1.0-S2E.mp4"
  /\ ~ (forall c,
          In c (new_calls Sim.rt (Sim.request "/tmp/face.jpg" "voice.wav" None)
                  (Sim.world (Some Sim.agent_writes) Sim.machine)) ->
          arg_res_video_path c
          = res_video_path_of_basenames Sim.rt Sim.agent_writes Sim.clock
              (Sim.request "/tmp/face.jpg" "voice.wav" None)).
Proof.
  split; [reflexivity|]. split; [reflexivity|].
  intros H.
  specialize (H (run_inference_args Sim.rt Sim.agent_writes
                   (Sim.request "/tmp/face.jpg" "voice.wav" None)
                   Sim.scratch Sim.clock) (or_introl eq_refl)).
  vm_compute in H. discriminate H.
Qed.

(** C2: when the agent returns a path at which no file exists, the
    [HTTPException] with the fixed detail is raised inside the [try], so
    [except Exception] catches it: the answer is a 500 whose detail is the
    wrapped text of that exception, not the fixed detail. *)
Theorem missing_output_detail_is_wrapped {F S} (rt : Runtime F S)
    (req : Request F) (w : World F S) (ag : InferenceAgent F S)
    (d : string) (s3 : S) (p : string) (s4 : S) :
  agent w = Some ag -> staged rt req w d s3 ->
  run_inference ag (run_inference_args rt ag req d (strftime_now rt s3)) s3
  = (Returned p, s4) ->
  path_exists rt p s4 = false ->
  fst (inference rt req w)
  = Raised (HTTPException 500
              ("추론 중 오류 발생: "
                 ++ http_exception_str rt 500 "비디오 생성에 실패했습니다."))
  /\ fst (inference rt req w)
     <> Raised (HTTPException 500 "비디오 생성에 실패했습니다.").
Proof.
  intros Hag Hst Hrun Hex.
  assert (Hst' := Hst). destruct Hst' as (s1 & s2 & Hmk & _).
  rewrite (inference_allocated rt req w ag d s1 Hag Hmk). cbn [fst].
  rewrite (inference_try_staged rt req w ag d s3 _ s4 Hst Hrun s1 Hmk).
  cbn [fst]. rewrite Hex. split; [reflexivity|].
  intros H.
  apply (f_equal (fun o => match o with
                           | Raised (Exception (HTTPException _ detail)) =>
                               detail
                           | _ => ""
                           end)) in H.
  exact (wrapped_detail_differs _ H).
Qed.

Lemma missing_output_detail_is_wrapped_witness :
  fst (inference Sim.rt Sim.defaults (Sim.world (Some Sim.agent_silent) Sim.machine))
  = Raised (HTTPException 500
              ("추론 중 오류 발생: "
                 ++ http_exception_str Sim.rt 500 "비디오 생성에 실패했습니다."))
  /\ fst (inference Sim.rt Sim.defaults
            (Sim.world (Some Sim.agent_silent) Sim.machine))
     <> Raised (HTTPException 500 "비디오 생성에 실패했습니다.").
Proof.
  apply (missing_output_detail_is_wrapped Sim.rt Sim.defaults
           (Sim.world (Some Sim.agent_silent) Sim.machine) Sim.agent_silent
           Sim.scratch (Sim.staged_machine Sim.defaults Sim.machine)
           "results/2025-03-01T12-00-00-face-voice-nfe10-seed25-acfg2.0-ecfg1.0-S2E.mp4"
           (Sim.staged_machine Sim.defaults Sim.machine)).
  - reflexivity.
  - do 2 eexists. repeat split.
  - reflexivity.
  - reflexivity.
Defined.

(** C7: when the agent returns a path that exists, the handler returns a
    [FileResponse] for that path, with media type [video/mp4] and the base
    name of the path as download file name. *)
Theorem existing_output_is_returned {F S} (rt : Runtime F S)
    (req : Request F) (w : World F S) (ag : InferenceAgent F S)
    (d : string) (s3 : S) (p : string) (s4 : S) :
  agent w = Some ag -> staged rt req w d s3 ->
  run_inference ag (run_inference_args rt ag req d (strftime_now rt s3)) s3
  = (Returned p, s4) ->
  path_exists rt p s4 = true ->
  fst (inference rt req w)
  = Returned {| resp_path := p; resp_media_type := "video/mp4";
                resp_filename := os_path.basename p |}.
Proof.
  intros Hag Hst Hrun Hex.
  assert (Hst' := Hst). destruct Hst' as (s1 & s2 & Hmk & _).
  rewrite (inference_allocated rt req w ag d s1 Hag Hmk). cbn [fst].
  rewrite (inference_try_staged rt req w ag d s3 _ s4 Hst Hrun s1 Hmk).
  cbn [fst]. now rewrite Hex.
Qed.

Lemma existing_output_is_returned_witness :
  fst (inference Sim.rt Sim.defaults (Sim.world (Some Sim.agent_writes) Sim.machine))
  = Returned
      {| resp_path :=
           "results/2025-03-01T12-00-00-face-voice-nfe10-seed25-acfg2.0-ecfg1.0-S2E.mp4";
         resp_media_type := "video/mp4";
         resp_filename :=
           os_path.basename
             "results/2025-03-01T12-00-00-face-voice-nfe10-seed25-acfg2.0-ecfg1.0-S2E.mp4" |}.
Proof.
  apply (existing_output_is_returned Sim.rt Sim.defaults
           (Sim.world (Some Sim.agent_writes) Sim.machine) Sim.agent_writes
           Sim.scratch (Sim.staged_machine Sim.defaults Sim.machine)
           "results/2025-03-01T12-00-00-face-voice-nfe10-seed25-acfg2.0-ecfg1.0-S2E.mp4"
           (Sim.create
              "results/2025-03-01T12-00-00-face-voice-nfe10-seed25-acfg2.0-ecfg1.0-S2E.mp4"
              (Sim.staged_machine Sim.defaults Sim.machine))).
  - reflexivity.
  - do 2 eexists. repeat split.
  - reflexivity.
  - reflexivity.
Defined.

(** C3, as the handler does it: once the scratch directory is allocated, on
    every way out of the [try] (a file response, the missing-output failure,
    any exception) the [finally] block runs [shutil.rmtree] on it.  When the
    deletion returns, the directory no longer exists; when it raises, one
    line is printed and the directory may remain.  The response is the one
    the [try] and its [except] decided: no [rmtree], failing or not, changes
    it. *)
Theorem scratch_dir_cleanup {F S} (rt : Runtime F S) (req : Request F)
    (w : World F S) (ag : InferenceAgent F S) (d : string) (s1 : S) :
  rmtree_removes rt ->
  agent w = Some ag -> mkdtemp rt (os w) = (Returned d, s1) ->
  exists r w2,
    try_except (inference_try rt ag req d) (inference_except rt) (with_os w s1)
    = (r, w2)
    /\ fst (inference rt req w) = r
    /\ (forall rm, fst (inference (with_rmtree rt rm) req w) = r)
    /\ match rmtree rt d (os w2) with
       | (Returned _, s) =>
           snd (inference rt req w) = with_os w2 s
           /\ path_exists rt d (os (snd (inference rt req w))) = false
       | (Raised e, s) =>
           snd (inference rt req w)
           = {| agent := agent w2; os := s;
                stdout := stdout w2 ++ ["임시 디렉토리 삭제 실패: " ++ exn_str rt e];
                calls := calls w2 |}
       end.
Proof.
  intros Hrm Hag Hmk.
  destruct (try_except (inference_try rt ag req d) (inference_except rt)
              (with_os w s1)) as [r w2] eqn:Etry.
  exists r, w2. split; [reflexivity|].
  rewrite (inference_allocated rt req w ag d s1 Hag Hmk), Etry. cbn [fst snd].
  split; [reflexivity|]. split.
  - intros rm.
    rewrite (inference_allocated (with_rmtree rt rm) req w ag d s1 Hag Hmk).
    cbn [fst]. exact (f_equal fst Etry).
  - rewrite inference_finally_run. cbn [snd].
    destruct (rmtree rt d (os w2)) as [[[]|e] s] eqn:Erm.
    + split; [reflexivity|]. exact (Hrm d (os w2) s Erm).
    + reflexivity.
Qed.

Lemma scratch_dir_cleanup_witness :
  exists r w2,
    try_except (inference_try Sim.rt Sim.agent_writes Sim.defaults Sim.scratch)
      (inference_except Sim.rt)
      (with_os (Sim.world (Some Sim.agent_writes) Sim.machine)
         (Sim.create Sim.scratch Sim.machine))
    = (r, w2)
    /\ fst (inference Sim.rt Sim.defaults
              (Sim.world (Some Sim.agent_writes) Sim.machine)) = r
    /\ (forall rm,
          fst (inference (with_rmtree Sim.rt rm) Sim.defaults
                 (Sim.world (Some Sim.agent_writes) Sim.machine)) = r)
    /\ match rmtree Sim.rt Sim.scratch (os w2) with
       | (Returned _, s) =>
           snd (inference Sim.rt Sim.defaults
                  (Sim.world (Some Sim.agent_writes) Sim.machine))
           = with_os w2 s
           /\ path_exists Sim.rt Sim.scratch
                (os (snd (inference Sim.rt Sim.defaults
                            (Sim.world (Some Sim.agent_writes) Sim.machine))))
              = false
       | (Raised e, s) =>
           snd (inference Sim.rt Sim.defaults
                  (Sim.world (Some Sim.agent_writes) Sim.machine))
           = {| agent := agent w2; os := s;
                stdout := stdout w2
                            ++ ["임시 디렉토리 삭제 실패: " ++ exn_str Sim.rt e];
                calls := calls w2 |}
       end.
Proof.
  apply (scratch_dir_cleanup Sim.rt Sim.defaults
           (Sim.world (Some Sim.agent_writes) Sim.machine) Sim.agent_writes
           Sim.scratch (Sim.create Sim.scratch Sim.machine)).
  - exact sim_rmtree_removes.
  - reflexivity.
  - reflexivity.
Defined.

(** C6, as the handler does it: when the agent's call raises an instance of
    [Exception], the answer is a 500 whose detail is the fixed prefix
    followed by the text of the exception; an exception that is not an
    instance of [Exception] leaves the handler as it is.  Either way
    [shutil.rmtree] is still run on the scratch directory, which is gone
    whenever that deletion returns. *)
Theorem agent_exception_answer {F S} (rt : Runtime F S) (req : Request F)
    (w : World F S) (ag : InferenceAgent F S) (d : string) (s3 : S)
    (b : base_exn) (s4 : S) :
  rmtree_removes rt ->
  agent w = Some ag -> staged rt req w d s3 ->
  run_inference ag (run_inference_args rt ag req d (strftime_now rt s3)) s3
  = (Raised b, s4) ->
  fst (inference rt req w)
  = match b with
    | Exception e =>
        Raised (HTTPException 500 ("추론 중 오류 발생: " ++ exn_str rt e))
    | Fatal name => Raised (Fatal name)
    end
  /\ os (snd (inference rt req w)) = snd (rmtree rt d s4)
  /\ (fst (rmtree rt d s4) = Returned tt ->
      path_exists rt d (os (snd (inference rt req w))) = false).
Proof.
  intros Hrm Hag Hst Hrun.
  assert (Hst' := Hst). destruct Hst' as (s1 & s2 & Hmk & _).
  rewrite (inference_allocated rt req w ag d s1 Hag Hmk).
  rewrite (inference_try_staged rt req w ag d s3 _ s4 Hst Hrun s1 Hmk).
  cbn [fst snd]. rewrite inference_finally_run. cbn [snd os].
  split; [destruct b; reflexivity|].
  destruct (rmtree rt d s4) as [[[]|e'] s5] eqn:Erm; cbn [fst snd os with_os].
  - split; [reflexivity|]. intros _. exact (Hrm d s4 s5 Erm).
  - split; [reflexivity|]. intros H. discriminate H.
Qed.

Lemma agent_exception_answer_witness :
  fst (inference Sim.rt Sim.defaults (Sim.world (Some Sim.agent_raises) Sim.machine))
  = Raised (HTTPException 500 "추론 중 오류 발생: CUDA out of memory")
  /\ os (snd (inference Sim.rt Sim.defaults
                (Sim.world (Some Sim.agent_raises) Sim.machine)))
     = Sim.machine
  /\ path_exists Sim.rt Sim.scratch
       (os (snd (inference Sim.rt Sim.defaults
                   (Sim.world (Some Sim.agent_raises) Sim.machine))))
     = false.
Proof.
  destruct (agent_exception_answer Sim.rt Sim.defaults
              (Sim.world (Some Sim.agent_raises) Sim.machine) Sim.agent_raises
              Sim.scratch (Sim.staged_machine Sim.defaults Sim.machine)
              (Exception (Error "CUDA out of memory"))
              (Sim.staged_machine Sim.defaults Sim.machine))
    as (Hresp & Hos & Hgone).
  - exact sim_rmtree_removes.
  - reflexivity.
  - do 2 eexists. repeat split.
  - reflexivity.
  - split; [exact Hresp|]. split; [exact Hos|]. apply Hgone. reflexivity.
Defined.

(** C6 as stated fails, twice.  The agent raises an [Exception], the answer
    is the 500, and the deletion of the scratch directory is denied: the
    directory is still there after the response.  The agent is interrupted:
    [except Exception] does not catch a [KeyboardInterrupt], which leaves
    the handler as it is, and no 500 is answered. *)
Lemma agent_exception_claim_fails :
  (fst (inference Sim.rt Sim.defaults
          (Sim.world (Some Sim.agent_raises) Sim.machine_denied))
   = Raised (HTTPException 500 "추론 중 오류 발생: CUDA out of memory")
   /\ path_exists Sim.rt Sim.scratch
        (os (snd (inference Sim.rt Sim.defaults
                    (Sim.world (Some Sim.agent_raises) Sim.machine_denied))))
      = true
   /\ stdout (snd (inference Sim.rt Sim.defaults
                     (Sim.world (Some Sim.agent_raises) Sim.machine_denied)))
      = ["임시 디렉토리 삭제 실패: [Errno 13] Permission denied"])
  /\ (fst (inference Sim.rt Sim.defaults
             (Sim.world (Some Sim.agent_interrupted) Sim.machine))
      = Raised (Fatal "KeyboardInterrupt")
      /\ forall detail,
           fst (inference Sim.rt Sim.defaults
                  (Sim.world (Some Sim.agent_interrupted) Sim.machine))
           <> Raised (HTTPException 500 detail)).
Proof.
  split; [repeat split|]. split; [reflexivity|]. intros detail H.
  vm_compute in H. discriminate H.
Qed.

(** C3 as stated fails: the agent writes the video, the handler returns
    the file response, and the deletion of the scratch directory is denied:
    the failure is printed and the directory is still there after the
    response. *)
Lemma cleanup_denied_scratch_dir_stays :
  fst (inference Sim.rt Sim.defaults
         (Sim.world (Some Sim.agent_writes) Sim.machine_denied))
  = Returned
      {| resp_path :=
           "results/2025-03-01T12-00-00-face-voice-nfe10-seed25-acfg2.0-ecfg1.0-S2E.mp4";
         resp_media_type := "video/mp4";
         resp_filename :=
           "2025-03-01T12-00-00-face-voice-nfe10-seed25-acfg2.0-ecfg1.0-S2E.mp4" |}
  /\ path_exists Sim.rt Sim.scratch
       (os (snd (inference Sim.rt Sim.defaults
                   (Sim.world (Some Sim.agent_writes) Sim.machine_denied))))
     = true
  /\ stdout (snd (inference Sim.rt Sim.defaults
                    (Sim.world (Some Sim.agent_writes) Sim.machine_denied)))
     = ["임시 디렉토리 삭제 실패: [Errno 13] Permission denied"].
Proof. repeat split. Qed.

(** ** Further properties of the handler *)

Section MoreRuns.

Context {F S : Type}.
Variable rt : Runtime F S.

(** With the scratch directory [d] allocated, the one call the agent may
    receive is made for that directory. *)
Lemma new_calls_allocated (req : Request F) (w : World F S) ag d s1 c :
  agent w = Some ag -> mkdtemp rt (os w) = (Returned d, s1) ->
  In c (new_calls rt req w) ->
  exists s, c = run_inference_args rt ag req d (strftime_now rt s).
Proof.
  unfold new_calls. intros Hag Hmk. run. rewrite Hag. unfold_handler.
  simpl_world. rewrite Hmk. simpl_world. repeat run_step.
  all: rewrite ?skipn_length, ?skipn_length_app; cbn [In]; try tauto.
  all: intros [<-|[]]; eauto.
Qed.

End MoreRuns.

(** The ways out of the handler once the scratch directory is there. *)
Lemma allocated_ways_out {F S} (rt : Runtime F S) (req : Request F)
    (w : World F S) (ag : InferenceAgent F S) (d : string) (s1 : S) :
  agent w = Some ag -> mkdtemp rt (os w) = (Returned d, s1) ->
  (exists p,
     fst (inference rt req w)
     = Returned {| resp_path := p; resp_media_type := "video/mp4";
                   resp_filename := os_path.basename p |})
  \/ (exists text,
        fst (inference rt req w)
        = Raised (HTTPException 500 (prefix_inference_error ++ text)))
  \/ (exists name c s s',
        run_inference ag c s = (Raised (Fatal name), s')
        /\ fst (inference rt req w) = Raised (Fatal name)).
Proof.
  intros Hag Hmk. run. rewrite Hag. unfold_handler. simpl_world.
  rewrite Hmk. simpl_world. unfold exn_str. repeat run_step; eauto 10.
Qed.

(** X1: once the scratch directory is allocated the handler has three ways
    out only: it returns a [FileResponse] of media type [video/mp4] named by
    the base name of its path; it raises an [HTTPException] of status 500
    whose detail begins with the text of the [except] clause; or an
    exception of the agent that is not an instance of [Exception] leaves it
    as it is.  No other status and no instance of [Exception] leaves the
    handler. *)
Theorem allocated_answers {F S} (rt : Runtime F S) (req : Request F)
    (w : World F S) (ag : InferenceAgent F S) (d : string) (s1 : S) :
  agent w = Some ag -> mkdtemp rt (os w) = (Returned d, s1) ->
  (exists p,
     fst (inference rt req w)
     = Returned {| resp_path := p; resp_media_type := "video/mp4";
                   resp_filename := os_path.basename p |})
  \/ (exists text,
        fst (inference rt req w)
        = Raised (HTTPException 500 ("추론 중 오류 발생: " ++ text)))
  \/ (exists name c s s',
        run_inference ag c s = (Raised (Fatal name), s')
        /\ fst (inference rt req w) = Raised (Fatal name)).
Proof. exact (allocated_ways_out rt req w ag d s1). Qed.

Lemma allocated_answers_witness :
  (exists p,
     fst (inference Sim.rt Sim.defaults
            (Sim.world (Some Sim.agent_interrupted) Sim.machine))
     = Returned {| resp_path := p; resp_media_type := "video/mp4";
                   resp_filename := os_path.basename p |})
  \/ (exists text,
        fst (inference Sim.rt Sim.defaults
               (Sim.world (Some Sim.agent_interrupted) Sim.machine))
        = Raised (HTTPException 500 ("추론 중 오류 발생: " ++ text)))
  \/ (exists name c s s',
        run_inference Sim.agent_interrupted c s = (Raised (Fatal name), s')
        /\ fst (inference Sim.rt Sim.defaults
                  (Sim.world (Some Sim.agent_interrupted) Sim.machine))
           = Raised (Fatal name)).
Proof.
  apply (allocated_answers Sim.rt Sim.defaults
           (Sim.world (Some Sim.agent_interrupted) Sim.machine)
           Sim.agent_interrupted Sim.scratch (Sim.create Sim.scratch Sim.machine)).
  - reflexivity.
  - reflexivity.
Defined.

(** X2: [tempfile.mkdtemp()] stands before the [try]: when it raises, the
    exception leaves the handler as it is, not as a 500 of the handler's
    own; the agent is not called, nothing is printed and no deletion is
    attempted (the machine is left as [mkdtemp] left it). *)
Theorem mkdtemp_error_escapes {F S} (rt : Runtime F S) (req : Request F)
    (w : World F S) (ag : InferenceAgent F S) (e : exn) (s1 : S) :
  agent w = Some ag -> mkdtemp rt (os w) = (Raised e, s1) ->
  inference rt req w = (Raised e, with_os w s1)
  /\ new_calls rt req w = [].
Proof.
  intros Hag Hmk.
  assert (H : inference rt req w = (Raised e, with_os w s1)).
  { unfold inference, bind, get_agent, lift. now rewrite Hag, Hmk. }
  split; [exact H|]. unfold new_calls. rewrite H. apply skipn_length.
Qed.

Lemma mkdtemp_error_escapes_witness :
  inference (sim_faulty true (fun _ => false)) Sim.defaults
    (Sim.world (Some Sim.agent_writes) Sim.machine)
  = (Raised (Error "[Errno 28] No space left on device"),
     with_os (Sim.world (Some Sim.agent_writes) Sim.machine) Sim.machine)
  /\ new_calls (sim_faulty true (fun _ => false)) Sim.defaults
       (Sim.world (Some Sim.agent_writes) Sim.machine) = [].
Proof.
  apply (mkdtemp_error_escapes (sim_faulty true (fun _ => false)) Sim.defaults
           (Sim.world (Some Sim.agent_writes) Sim.machine) Sim.agent_writes
           (Error "[Errno 28] No space left on device") Sim.machine).
  - reflexivity.
  - reflexivity.
Defined.

(** X3: when an upload cannot be written (the reference image, or the audio
    after it), the agent is never called; the answer is the 500 that carries
    the text of the exception, and the deletion of the scratch directory is
    run on the machine as the failed write left it. *)
Theorem upload_error_is_500 {F S} (rt : Runtime F S) (req : Request F)
    (w : World F S) (ag : InferenceAgent F S) (d : string) (s1 : S)
    (e : exn) (s : S) :
  agent w = Some ag -> mkdtemp rt (os w) = (Returned d, s1) ->
  save rt (os_path.join d (filename (ref_image req))) (file (ref_image req)) s1
  = (Raised e, s)
  \/ (exists s2,
        save rt (os_path.join d (filename (ref_image req)))
          (file (ref_image req)) s1 = (Returned tt, s2)
        /\ save rt (os_path.join d (filename (audio req))) (file (audio req)) s2
           = (Raised e, s)) ->
  fst (inference rt req w)
  = Raised (HTTPException 500 ("추론 중 오류 발생: " ++ exn_str rt e))
  /\ new_calls rt req w = []
  /\ os (snd (inference rt req w)) = snd (rmtree rt d s).
Proof.
  intros Hag Hmk Hsave.
  assert (Htry :
    try_except (inference_try rt ag req d) (inference_except rt) (with_os w s1)
    = (Raised (HTTPException 500 (prefix_inference_error ++ exn_str rt e)),
       with_os w s)).
  { unfold_handler. simpl_world.
    destruct Hsave as [Hr | (s2 & Hr & Ha)]; rewrite Hr; simpl_world;
      [reflexivity|]. rewrite Ha. reflexivity. }
  unfold new_calls.
  rewrite (inference_allocated rt req w ag d s1 Hag Hmk), Htry.
  cbn [fst snd]. rewrite inference_finally_run. cbn [snd].
  destruct (rmtree rt d (os (with_os w s))) as [[[]|e'] s'] eqn:Erm;
    cbn [os with_os calls] in *; rewrite skipn_length, Erm; repeat split.
Qed.

Lemma upload_error_is_500_witness :
  fst (inference (sim_faulty false (String.eqb "/tmp/tmpk2v9x1/voice.wav"))
         Sim.defaults (Sim.world (Some Sim.agent_writes) Sim.machine))
  = Raised (HTTPException 500
              ("추론 중 오류 발생: " ++ "[Errno 13] Permission denied"))
  /\ new_calls (sim_faulty false (String.eqb "/tmp/tmpk2v9x1/voice.wav"))
       Sim.defaults (Sim.world (Some Sim.agent_writes) Sim.machine) = []
  /\ os (snd (inference (sim_faulty false (String.eqb "/tmp/tmpk2v9x1/voice.wav"))
                Sim.defaults (Sim.world (Some Sim.agent_writes) Sim.machine)))
     = snd (Sim.remove_tree Sim.scratch
              (Sim.create "/tmp/tmpk2v9x1/face.jpg"
                 (Sim.create Sim.scratch Sim.machine))).
Proof.
  apply (upload_error_is_500
           (sim_faulty false (String.eqb "/tmp/tmpk2v9x1/voice.wav"))
           Sim.defaults (Sim.world (Some Sim.agent_writes) Sim.machine)
           Sim.agent_writes Sim.scratch (Sim.create Sim.scratch Sim.machine)
           (Error "[Errno 13] Permission denied")
           (Sim.create "/tmp/tmpk2v9x1/face.jpg"
              (Sim.create Sim.scratch Sim.machine))).
  - reflexivity.
  - reflexivity.
  - right. eexists. split; reflexivity.
Defined.

(** X4: a run of the handler leaves the global [agent] as it was, keeps the
    calls already made to the agent and adds at most one. *)
Theorem inference_keeps_agent_and_history {F S} (rt : Runtime F S)
    (req : Request F) (w : World F S) :
  agent (snd (inference rt req w)) = agent w
  /\ calls (snd (inference rt req w)) = (calls w ++ new_calls rt req w)%list
  /\ (length (new_calls rt req w) <= 1)%nat.
Proof.
  unfold new_calls. unfold inference, bind, get_agent.
  destruct (agent w) as [ag|] eqn:Hag.
  - run; rewrite ?skipn_length, ?skipn_length_app, ?app_nil_r; cbn [length];
      repeat split; auto.
  - unfold raise. cbn [snd]. rewrite skipn_length, app_nil_r. cbn [length].
    repeat split; auto.
Qed.

(** The [try] and its [except] print nothing. *)
Lemma try_keeps_stdout {F S} (rt : Runtime F S) (req : Request F)
    (ag : InferenceAgent F S) (d : string) (w : World F S) :
  stdout (snd (try_except (inference_try rt ag req d) (inference_except rt) w))
  = stdout w.
Proof. run; reflexivity. Qed.

(** X5: what a run of the handler prints is fixed by the deletion of the
    scratch directory alone: one line, the fixed text followed by the text
    of the exception, when [shutil.rmtree] raises on the machine the [try]
    left, and nothing in every other case (no agent, [mkdtemp] raising, a
    deletion that returns). *)
Theorem inference_prints_only_cleanup_failure {F S} (rt : Runtime F S)
    (req : Request F) (w : World F S) :
  stdout (snd (inference rt req w))
  = (stdout w
     ++ match agent w with
        | None => []
        | Some ag =>
            match mkdtemp rt (os w) with
            | (Raised _, _) => []
            | (Returned d, s1) =>
                match
                  rmtree rt d
                    (os (snd (try_except (inference_try rt ag req d)
                                (inference_except rt) (with_os w s1))))
                with
                | (Returned _, _) => []
                | (Raised e, _) =>
                    [("임시 디렉토리 삭제 실패: " ++ exn_str rt e)%string]
                end
            end
        end)%list.
Proof.
  destruct (agent w) as [ag|] eqn:Hag.
  - destruct (mkdtemp rt (os w)) as [[d|e] s1] eqn:Hmk.
    + rewrite (inference_allocated rt req w ag d s1 Hag Hmk). cbn [snd].
      rewrite inference_finally_run. cbn [snd].
      destruct (rmtree rt d _) as [[[]|e] s5]; cbn [stdout with_os];
        rewrite try_keeps_stdout; cbn [stdout with_os];
        [now rewrite app_nil_r|reflexivity].
    + unfold inference, bind, get_agent, lift. rewrite Hag, Hmk.
      cbn [snd stdout with_os]. now rewrite app_nil_r.
  - rewrite (inference_not_loaded rt req w Hag). cbn [snd].
    now rewrite app_nil_r.
Qed.

(** ** Facts on [rfind], slices and [os.path] *)

Lemma rfind_from_app (c : ascii) (x y : string) (i last : Z) :
  Py.rfind_from c (x ++ y) i last
  = Py.rfind_from c y (i + Z.of_nat (String.length x)) (Py.rfind_from c x i last).
Proof.
  revert i last. induction x as [|a x IH]; intros i last.
  - cbn. now rewrite Z.add_0_r.
  - cbn [append Py.rfind_from String.length]. rewrite IH. f_equal. lia.
Qed.

Lemma rfind_from_last_or_ge (c : ascii) (y : string) (i last : Z) :
  Py.rfind_from c y i last = last \/ i <= Py.rfind_from c y i last.
Proof.
  revert i last. induction y as [|a y IH]; intros i last; cbn; [now left|].
  destruct (Ascii.eqb a c).
  - right. destruct (IH (i + 1) i) as [-> | H]; lia.
  - destruct (IH (i + 1) last) as [-> | H]; [now left|right; lia].
Qed.

Lemma rfind_from_unchanged (c : ascii) (y : string) (i last : Z) :
  last < i -> Py.rfind_from c y i last = last ->
  forall i' last', Py.rfind_from c y i' last' = last'.
Proof.
  revert i last. induction y as [|a y IH]; intros i last Hlt H i' last';
    [reflexivity|].
  cbn in H |- *. destruct (Ascii.eqb a c).
  - exfalso. destruct (rfind_from_last_or_ge c y (i + 1) i) as [E | E]; lia.
  - apply (IH (i + 1) last); [lia|exact H].
Qed.

(** A string in which [c] does not occur leaves the index found so far as
    it is. *)
Lemma rfind_from_absent (c : ascii) (y : string) :
  Py.rfind y c = -1 -> forall i last, Py.rfind_from c y i last = last.
Proof. intros H. apply (rfind_from_unchanged c y 0 (-1)); [lia|exact H]. Qed.

Lemma rfind_from_endswith (c : ascii) (a : string) (i last : Z) :
  Py.endswith a c = true ->
  Py.rfind_from c a i last = i + Z.of_nat (String.length a) - 1.
Proof.
  revert i last. induction a as [|x a IH]; intros i last H; [discriminate|].
  destruct a as [|y a].
  - cbn in H |- *. rewrite H. lia.
  - change (Py.rfind_from c (String x (String y a)) i last)
      with (Py.rfind_from c (String y a) (i + 1)
              (if Ascii.eqb x c then i else last)).
    rewrite IH; [|exact H].
    change (String.length (String x (String y a)))
      with (Datatypes.S (String.length (String y a))).
    lia.
Qed.

(** [(a ++ b)[len(a):]] is [b]. *)
Lemma slice_from_app (a b : string) :
  Py.slice_from (a ++ b) (Z.of_nat (String.length a)) = b.
Proof.
  unfold Py.slice_from. rewrite Nat2Z.id.
  induction a as [|x a IH]; cbn [append String.length].
  - rewrite Nat.sub_0_r. apply substring_whole.
  - cbn [substring Nat.sub]. exact IH.
Qed.

Lemma slice_from_app_char (a : string) (c : ascii) (b : string) :
  Py.slice_from (a ++ String c b) (0 + Z.of_nat (String.length a) + 1) = b.
Proof.
  unfold Py.slice_from.
  replace (Z.to_nat (0 + Z.of_nat (String.length a) + 1))
    with (Datatypes.S (String.length a)) by lia.
  induction a as [|x a IH]; cbn [append String.length].
  - cbn [substring Nat.sub]. rewrite Nat.sub_0_r. apply substring_whole.
  - cbn [substring Nat.sub] in IH |- *. exact IH.
Qed.

(** [s[:n] + s[n:]] is [s]. *)
Lemma slice_to_from (s : string) (n : Z) :
  Py.slice_to s n ++ Py.slice_from s n = s.
Proof.
  unfold Py.slice_to, Py.slice_from. generalize (Z.to_nat n) as k.
  induction s as [|x s IH]; intros [|k]; cbn; try reflexivity.
  - f_equal. apply substring_whole.
  - f_equal. apply IH.
Qed.

Lemma append_empty_r (s : string) : s ++ "" = s.
Proof. induction s as [|x s IH]; cbn; [reflexivity|now rewrite IH]. Qed.

Lemma prefix_append (a b : string) : String.prefix a (a ++ b) = true.
Proof.
  induction a as [|x a IH]; cbn; [now destruct b|].
  destruct (ascii_dec x x); [exact IH|contradiction].
Qed.

(** [os.path.basename(os.path.join(a, b))] is [b] when [b] holds no
    separator. *)
Lemma basename_join (a b : string) :
  Py.rfind b os_path.sep = -1 -> os_path.basename (os_path.join a b) = b.
Proof.
  intros Hb. unfold os_path.join.
  destruct (Py.startswith b os_path.sep) eqn:Hs;
    [exact (basename_without_sep b Hb)|].
  destruct a as [|x a]; [exact (basename_without_sep b Hb)|].
  cbn [Py.truthy negb orb].
  destruct (Py.endswith (String x a) os_path.sep) eqn:He;
    unfold os_path.basename, Py.rfind.
  - rewrite rfind_from_app, (rfind_from_absent _ b Hb),
      (rfind_from_endswith _ _ 0 (-1) He).
    replace (0 + Z.of_nat (String.length (String x a)) - 1 + 1)
      with (Z.of_nat (String.length (String x a))) by lia.
    apply slice_from_app.
  - rewrite rfind_from_app. cbn [Py.rfind_from].
    rewrite Ascii.eqb_refl, (rfind_from_absent _ b Hb).
    apply slice_from_app_char.
Qed.


(** The writes of a run whose scratch directory is [d]: the reference
    image, then the audio unless the first write raised. *)
Lemma writes_allocated {F S} (rt : Runtime F S) (req : Request F)
    (w : World F S) (ag : InferenceAgent F S) (d : string) (s1 : S) :
  agent w = Some ag -> mkdtemp rt (os w) = (Returned d, s1) ->
  writes rt req w
  = (os_path.join d (filename (ref_image req)), file (ref_image req))
    :: match save rt (os_path.join d (filename (ref_image req)))
               (file (ref_image req)) s1 with
       | (Returned _, _) =>
           [(os_path.join d (filename (audio req)), file (audio req))]
       | (Raised _, _) => []
       end.
Proof.
  intros Hag Hmk. unfold writes, recording_world.
  unfold inference, bind, get_agent. cbn [agent]. rewrite Hag. cbn [option_map].
  unfold_handler. unfold recording, recording_agent.
  cbn [fst snd agent os stdout calls negb mkdtemp save strftime_now path_exists
       rmtree run_inference res_dir app].
  rewrite Hmk. cbn [fst snd agent os stdout calls].
  destruct (save rt (os_path.join d (filename (ref_image req)))
              (file (ref_image req)) s1) as [[[]|e] s2];
    cbn [fst snd agent os stdout calls app].
  - destruct (save rt (os_path.join d (filename (audio req)))
                (file (audio req)) s2) as [[[]|e] s3];
      cbn [fst snd agent os stdout calls app].
    + match goal with
      | |- context [run_inference ag ?c s3] =>
          destruct (run_inference ag c s3) as [[p|[e|name]] s4]
      end; cbn [fst snd agent os stdout calls app].
      * destruct (path_exists rt p s4); cbn [fst snd os negb];
          destruct (rmtree rt d s4) as [[[]|e] s5]; reflexivity.
      * destruct (rmtree rt d s4) as [[[]|e'] s5]; reflexivity.
      * destruct (rmtree rt d s4) as [[[]|e'] s5]; reflexivity.
    + destruct (rmtree rt d s3) as [[[]|e'] s5]; reflexivity.
  - destruct (rmtree rt d s2) as [[[]|e'] s5]; reflexivity.
Qed.



(** The run above on the simulated machine: the image goes to [/etc], the
    audio into the scratch directory. *)
Example sim_absolute_upload_name :
  writes Sim.rt (Sim.request "/etc/face.jpg" "voice.wav" None)
    (Sim.world (Some Sim.agent_writes) Sim.machine)
  = [("/etc/face.jpg", "jpeg"); ("/tmp/tmpk2v9x1/voice.wav", "wav")].
Proof. reflexivity. Qed.

(** X7: when both uploads carry the same file name and both writes succeed,
    the audio is written at the very path the reference image was written
    at, after it, and the agent is given that one path as reference image
    and as audio. *)
Theorem same_upload_name_same_path {F S} (rt : Runtime F S) (req : Request F)
    (w : World F S) (ag : InferenceAgent F S) (d : string) (s3 : S) :
  agent w = Some ag -> staged rt req w d s3 ->
  filename (ref_image req) = filename (audio req) ->
  exists p c,
    writes rt req w = [(p, file (ref_image req)); (p, file (audio req))]
    /\ new_calls rt req w = [c]
    /\ arg_ref_path c = p
    /\ arg_audio_path c = p.
Proof.
  intros Hag Hst Hname.
  exists (os_path.join d (filename (ref_image req))),
         (run_inference_args rt ag req d (strftime_now rt s3)).
  assert (Hst' := Hst). destruct Hst' as (s1 & s2 & Hmk & Hr & _).
  split.
  - rewrite (writes_allocated rt req w ag d s1 Hag Hmk), Hr.
    now rewrite Hname.
  - split; [exact (new_calls_staged rt req w ag d s3 Hag Hst)|].
    cbn [arg_ref_path arg_audio_path run_inference_args].
    now rewrite Hname.
Qed.

Lemma same_upload_name_same_path_witness :
  exists p c,
    writes Sim.rt (Sim.request "upload.bin" "upload.bin" None)
      (Sim.world (Some Sim.agent_writes) Sim.machine)
    = [(p, "jpeg"); (p, "wav")]
    /\ new_calls Sim.rt (Sim.request "upload.bin" "upload.bin" None)
         (Sim.world (Some Sim.agent_writes) Sim.machine) = [c]
    /\ arg_ref_path c = p
    /\ arg_audio_path c = p.
Proof.
  apply (same_upload_name_same_path Sim.rt
           (Sim.request "upload.bin" "upload.bin" None)
           (Sim.world (Some Sim.agent_writes) Sim.machine) Sim.agent_writes
           Sim.scratch
           (Sim.staged_machine (Sim.request "upload.bin" "upload.bin" None)
              Sim.machine)).
  - reflexivity.
  - do 2 eexists. repeat split.
  - reflexivity.
Defined.

(** X8: the agent receives the form values unchanged (the three scales, the
    number of steps, the crop flag and the seed), and [verbose] is always
    true. *)
Theorem tuning_values_forwarded {F S} (rt : Runtime F S) (req : Request F)
    (w : World F S) (ag : InferenceAgent F S) (c : Call F) :
  agent w = Some ag -> In c (new_calls rt req w) ->
  arg_a_cfg_scale c = a_cfg_scale req
  /\ arg_r_cfg_scale c = r_cfg_scale req
  /\ arg_e_cfg_scale c = e_cfg_scale req
  /\ arg_nfe c = nfe req
  /\ arg_no_crop c = no_crop req
  /\ arg_seed c = seed req
  /\ arg_verbose c = true.
Proof.
  intros Hag Hin.
  destruct (new_calls_spec rt req w ag c Hag Hin) as (d & s & -> & _).
  repeat split.
Qed.

Lemma tuning_values_forwarded_witness :
  arg_a_cfg_scale
    (run_inference_args Sim.rt Sim.agent_writes Sim.defaults Sim.scratch Sim.clock)
  = 2
  /\ arg_r_cfg_scale
       (run_inference_args Sim.rt Sim.agent_writes Sim.defaults Sim.scratch
          Sim.clock) = 1
  /\ arg_e_cfg_scale
       (run_inference_args Sim.rt Sim.agent_writes Sim.defaults Sim.scratch
          Sim.clock) = 1
  /\ arg_nfe
       (run_inference_args Sim.rt Sim.agent_writes Sim.defaults Sim.scratch
          Sim.clock) = 10
  /\ arg_no_crop
       (run_inference_args Sim.rt Sim.agent_writes Sim.defaults Sim.scratch
          Sim.clock) = false
  /\ arg_seed
       (run_inference_args Sim.rt Sim.agent_writes Sim.defaults Sim.scratch
          Sim.clock) = 25
  /\ arg_verbose
       (run_inference_args Sim.rt Sim.agent_writes Sim.defaults Sim.scratch
          Sim.clock) = true.
Proof.
  apply (tuning_values_forwarded Sim.rt Sim.defaults
           (Sim.world (Some Sim.agent_writes) Sim.machine) Sim.agent_writes).
  - reflexivity.
  - left. reflexivity.
Defined.

(** X9: when the agent returns the path it was asked to write, the file is
    there, and the generated file name holds no separator, the download
    file name of the response is exactly the generated file name. *)
Theorem download_name_is_generated_name {F S} (rt : Runtime F S)
    (req : Request F) (w : World F S) (ag : InferenceAgent F S)
    (d : string) (s3 s4 : S) :
  agent w = Some ag -> staged rt req w d s3 ->
  run_inference ag (run_inference_args rt ag req d (strftime_now rt s3)) s3
  = (Returned (res_video_path rt ag (strftime_now rt s3) req), s4) ->
  path_exists rt (res_video_path rt ag (strftime_now rt s3) req) s4 = true ->
  Py.rfind
    (res_video_name rt (strftime_now rt s3)
       (fst (os_path.splitext (filename (ref_image req))))
       (fst (os_path.splitext (filename (audio req)))) req)
    os_path.sep = -1 ->
  fst (inference rt req w)
  = Returned
      {| resp_path := res_video_path rt ag (strftime_now rt s3) req;
         resp_media_type := "video/mp4";
         resp_filename :=
           res_video_name rt (strftime_now rt s3)
             (fst (os_path.splitext (filename (ref_image req))))
             (fst (os_path.splitext (filename (audio req)))) req |}.
Proof.
  intros Hag Hst Hrun Hex Hname.
  assert (Hst' := Hst). destruct Hst' as (s1 & s2 & Hmk & _).
  rewrite (inference_allocated rt req w ag d s1 Hag Hmk). cbn [fst].
  rewrite (inference_try_staged rt req w ag d s3 _ s4 Hst Hrun s1 Hmk).
  cbn [fst]. rewrite Hex. unfold res_video_path at 2.
  now rewrite (basename_join _ _ Hname).
Qed.

Lemma download_name_is_generated_name_witness :
  fst (inference Sim.rt Sim.defaults (Sim.world (Some Sim.agent_writes) Sim.machine))
  = Returned
      {| resp_path := res_video_path Sim.rt Sim.agent_writes Sim.clock Sim.defaults;
         resp_media_type := "video/mp4";
         resp_filename :=
           res_video_name Sim.rt Sim.clock
             (fst (os_path.splitext "face.jpg"))
             (fst (os_path.splitext "voice.wav")) Sim.defaults |}.
Proof.
  apply (download_name_is_generated_name Sim.rt Sim.defaults
           (Sim.world (Some Sim.agent_writes) Sim.machine) Sim.agent_writes
           Sim.scratch (Sim.staged_machine Sim.defaults Sim.machine)
           (Sim.create (res_video_path Sim.rt Sim.agent_writes Sim.clock Sim.defaults)
              (Sim.staged_machine Sim.defaults Sim.machine))).
  - reflexivity.
  - do 2 eexists. repeat split.
  - reflexivity.
  - reflexivity.
  - reflexivity.
Defined.

(** X10: cutting the extension of an upload name loses nothing: the name is
    the part kept followed by the part cut, and a name without a dot is
    kept whole. *)
Theorem splitext_root_ext (p : string) :
  fst (os_path.splitext p) ++ snd (os_path.splitext p) = p
  /\ (Py.rfind p os_path.extsep = -1 -> fst (os_path.splitext p) = p).
Proof.
  unfold os_path.splitext. split.
  - destruct (_ && _); cbn [fst snd]; [apply slice_to_from|].
    replace (Py.slice_to p 0) with "" by (now destruct p).
    apply append_empty_r.
  - intros H. rewrite H.
    destruct (rfind_from_last_or_ge os_path.sep p 0 (-1)) as [E | E];
      fold (Py.rfind p os_path.sep) in E.
    + rewrite E. reflexivity.
    + replace (Py.rfind p os_path.sep <? -1) with false
        by (symmetry; apply Z.ltb_ge; lia).
      reflexivity.
Qed.

(** X11: whatever the upload names, the output path begins with the results
    directory, as long as the time stamp does not begin with the separator:
    [os.path.join] never drops the directory here, since the file name
    begins with the time stamp. *)
Theorem output_path_under_res_dir {F S} (rt : Runtime F S) (req : Request F)
    (w : World F S) (ag : InferenceAgent F S) (c : Call F) :
  (forall s, Py.startswith (strftime_now rt s) os_path.sep = false) ->
  agent w = Some ag -> In c (new_calls rt req w) ->
  String.prefix (res_dir ag) (arg_res_video_path c) = true.
Proof.
  intros Hclock Hag Hin.
  destruct (new_calls_spec rt req w ag c Hag Hin) as (d & s & -> & _).
  cbn [arg_res_video_path run_inference_args].
  unfold res_video_path, os_path.join, res_video_name.
  specialize (Hclock s).
  destruct (strftime_now rt s) as [|x t]; cbn [append Py.startswith] in *.
  - destruct (negb (Py.truthy (res_dir ag)) || Py.endswith (res_dir ag) os_path.sep);
      apply prefix_append.
  - rewrite Hclock.
    destruct (negb (Py.truthy (res_dir ag)) || Py.endswith (res_dir ag) os_path.sep);
      apply prefix_append.
Qed.

Lemma output_path_under_res_dir_witness :
  String.prefix "results"
    (arg_res_video_path
       (run_inference_args Sim.rt Sim.agent_writes
          (Sim.request "/etc/face.jpg" "../voice.wav" None) Sim.scratch Sim.clock))
  = true.
Proof.
  apply (output_path_under_res_dir Sim.rt
           (Sim.request "/etc/face.jpg" "../voice.wav" None)
           (Sim.world (Some Sim.agent_writes) Sim.machine) Sim.agent_writes).
  - intros s. reflexivity.
  - reflexivity.
  - left. reflexivity.
Defined.

(** ** Start-up *)

(** X12: when the options parse, the agent is built and the results
    directory is made, [startup_event] returns with the agent installed, the
    machine as [os.makedirs] left it, and one line printed; requests that
    were answered 503 before are no longer rejected at the agent check, and
    [health_check] turns from not loaded to loaded. *)
Theorem startup_installs_agent {F S O} (rt : Runtime F S) (st : Startup F S O)
    (w : World F S) (opt opt' : Options O) (ag : InferenceAgent F S)
    (s1 s2 s3 : S) :
  agent w = None ->
  parse st (os w) = (Returned opt, s1) ->
  new_agent st (single_gpu opt) s1 = (Returned (ag, opt'), s2) ->
  makedirs st (opt_res_dir opt') s2 = (Returned tt, s3) ->
  startup_event st w
  = (Returned tt,
     {| agent := Some ag; os := s3;
        stdout := (stdout w ++ ["✓ FLOAT 모델이 성공적으로 로드되었습니다."])%list;
        calls := calls w |})
  /\ health_check w = ("healthy", false)
  /\ health_check (snd (startup_event st w)) = ("healthy", true)
  /\ forall req,
       fst (inference rt req w)
       = Raised (HTTPException 503 "모델이 아직 로드되지 않았습니다.")
       /\ forall d s4, mkdtemp rt s3 = (Returned d, s4) ->
            fst (inference rt req (snd (startup_event st w)))
            <> Raised (HTTPException 503 "모델이 아직 로드되지 않았습니다.").
Proof.
  intros Hnone Hparse Hnew Hmk.
  assert (Hrun : startup_event st w
    = (Returned tt,
       {| agent := Some ag; os := s3;
          stdout := (stdout w ++ [line_loaded])%list; calls := calls w |})).
  { unfold startup_event, bind, lift, call_out, set_agent, print, with_os.
    rewrite Hparse. simpl_world. rewrite Hnew. simpl_world. rewrite Hmk.
    reflexivity. }
  split; [exact Hrun|]. rewrite Hrun. cbn [snd].
  split; [unfold health_check; now rewrite Hnone|].
  split; [reflexivity|].
  intros req. split.
  - now rewrite (inference_not_loaded rt req w Hnone).
  - intros d s4 Hd.
    destruct (allocated_ways_out rt req
                {| agent := Some ag; os := s3;
                   stdout := (stdout w ++ [line_loaded])%list; calls := calls w |}
                ag d s4 eq_refl Hd)
      as [(p & ->) | [(text & ->) | (name & c & s & s' & _ & ->)]];
      discriminate.
Qed.

Lemma startup_installs_agent_witness :
  startup_event (sim_startup false) (Sim.world None sim_empty)
  = (Returned tt,
     {| agent := Some Sim.agent_writes; os := Sim.machine;
        stdout := ["✓ FLOAT 모델이 성공적으로 로드되었습니다."];
        calls := [] |})
  /\ health_check (Sim.world None sim_empty) = ("healthy", false)
  /\ health_check (snd (startup_event (sim_startup false) (Sim.world None sim_empty)))
     = ("healthy", true)
  /\ forall req,
       fst (inference Sim.rt req (Sim.world None sim_empty))
       = Raised (HTTPException 503 "모델이 아직 로드되지 않았습니다.")
       /\ forall d s4, mkdtemp Sim.rt Sim.machine = (Returned d, s4) ->
            fst (inference Sim.rt req
                   (snd (startup_event (sim_startup false)
                           (Sim.world None sim_empty))))
            <> Raised (HTTPException 503 "모델이 아직 로드되지 않았습니다.").
Proof.
  apply (startup_installs_agent Sim.rt (sim_startup false)
           (Sim.world None sim_empty)
           {| opt_rank := 3; opt_ngpus := 8; opt_res_dir := "results";
              opt_rest := tt |}
           {| opt_rank := 0; opt_ngpus := 1; opt_res_dir := "results";
              opt_rest := tt |}
           Sim.agent_writes sim_empty sim_empty Sim.machine).
  - reflexivity.
  - reflexivity.
  - reflexivity.
  - reflexivity.
Defined.

(** X13: the agent is installed before the results directory is made: when
    [os.makedirs] raises, [startup_event] raises that exception and prints
    nothing, yet the global [agent] is already set and [health_check]
    reports the model as loaded. *)
Theorem startup_makedirs_error {F S O} (st : Startup F S O) (w : World F S)
    (opt opt' : Options O) (ag : InferenceAgent F S) (s1 s2 s3 : S) (e : exn) :
  parse st (os w) = (Returned opt, s1) ->
  new_agent st (single_gpu opt) s1 = (Returned (ag, opt'), s2) ->
  makedirs st (opt_res_dir opt') s2 = (Raised e, s3) ->
  startup_event st w
  = (Raised e,
     {| agent := Some ag; os := s3; stdout := stdout w; calls := calls w |})
  /\ health_check (snd (startup_event st w)) = ("healthy", true).
Proof.
  intros Hparse Hnew Hmk.
  assert (Hrun : startup_event st w
    = (Raised e,
       {| agent := Some ag; os := s3; stdout := stdout w; calls := calls w |})).
  { unfold startup_event, bind, lift, call_out, set_agent, print, with_os.
    rewrite Hparse. simpl_world. rewrite Hnew. simpl_world. rewrite Hmk.
    reflexivity. }
  split; [exact Hrun|]. now rewrite Hrun.
Qed.

Lemma startup_makedirs_error_witness :
  startup_event (sim_startup true) (Sim.world None sim_empty)
  = (Raised (Error "[Errno 13] Permission denied"),
     {| agent := Some Sim.agent_writes; os := sim_empty; stdout := [];
        calls := [] |})
  /\ health_check (snd (startup_event (sim_startup true) (Sim.world None sim_empty)))
     = ("healthy", true).
Proof.
  apply (startup_makedirs_error (sim_startup true) (Sim.world None sim_empty)
           {| opt_rank := 3; opt_ngpus := 8; opt_res_dir := "results";
              opt_rest := tt |}
           {| opt_rank := 0; opt_ngpus := 1; opt_res_dir := "results";
              opt_rest := tt |}
           Sim.agent_writes sim_empty sim_empty sim_empty
           (Error "[Errno 13] Permission denied")).
  - reflexivity.
  - reflexivity.
  - reflexivity.
Defined.

(** X14: when the options do not parse, or the constructor of the agent
    raises, [startup_event] raises that exception with the global [agent]
    as it was (a service that was not loaded stays not loaded), nothing
    printed, and the machine as the failed step left it: the results
    directory is not made. *)
Theorem startup_error_leaves_agent {F S O} (st : Startup F S O) (w : World F S)
    (e : base_exn) (s : S) :
  parse st (os w) = (Raised e, s)
  \/ (exists opt s1,
        parse st (os w) = (Returned opt, s1)
        /\ new_agent st (single_gpu opt) s1 = (Raised e, s)) ->
  startup_event st w = (Raised e, with_os w s).
Proof.
  unfold startup_event, bind, lift, call_out.
  intros [Hparse | (opt & s1 & Hparse & Hnew)]; rewrite Hparse.
  - reflexivity.
  - simpl_world. cbn [with_os os]. now rewrite Hnew.
Qed.

Lemma startup_error_leaves_agent_witness :
  startup_event
    (with_parse (sim_startup false) (fun m => (Raised (Fatal "SystemExit"), m)))
    (Sim.world None sim_empty)
  = (Raised (Fatal "SystemExit"), with_os (Sim.world None sim_empty) sim_empty).
Proof.
  apply (startup_error_leaves_agent
           (with_parse (sim_startup false)
              (fun m => (Raised (Fatal "SystemExit"), m)))
           (Sim.world None sim_empty) (Fatal "SystemExit") sim_empty).
  left. reflexivity.
Defined.

